(** * xslx-utils: cell helpers over an in-memory worksheet

    A shallow embedding of [src/utils/cell-utils.ts] and of
    [Number.prototype.toFixedFloat] from the package index, together with
    the properties the specification states about them.

    JavaScript data is modelled as the code has it:
    - a [number] is an IEEE 754 binary64 value ([spec_float] at precision 53
      and maximal exponent 1024), and [toFixed] and [parseFloat] work on the
      text in between, digit by digit;
    - a cell record is an object, a finite map from property names to
      primitive values;
    - a worksheet is an object whose own properties hold cell records, the
      ['!merges'] array, or whatever primitive a caller stored there;
    - a function that mutates the worksheet it is given returns the
      worksheet's new content, and the copier, which is given two worksheets
      that may be one and the same object, works on a store of sheets;
    - an operation that may throw returns a [result]. *)

From Stdlib Require Import ZArith String Ascii List Lia.
From Stdlib Require Import Floats.SpecFloat.
From stdpp Require Import base option numbers list strings gmap pretty.
From Equations Require Import Equations.

Open Scope Z_scope.

(** ** Exceptions *)

Inductive error :=
| TypeError
| RangeError
| Error.

Inductive result (A : Type) :=
| Ok (a : A)
| Throw (err : error).
Arguments Ok {A} a.
Arguments Throw {A} err.

#[global] Instance result_ret : MRet result := @Ok.
#[global] Instance result_bind : MBind result :=
  fun A B f m => match m with Ok a => f a | Throw err => Throw err end.

(** ** Numbers *)

Abbreviation number := spec_float.

Definition prec : Z := 53.
Definition emax : Z := 1024.

Definition NaN : number := S754_nan.
Definition zero : number := S754_zero false.

(** [Number::equal], the comparison behind [===] on two numbers: NaN is
    equal to nothing, the two zeros are equal. *)
Definition Number_equal (x y : number) : bool := SFeqb x y.

(** The canonical binary64 representation of [m * 2^e], for a value that
    needs no rounding: the mantissa is shifted left as far as the format
    allows. *)
Definition finite_exact (s : bool) (m : positive) (e : Z) : number :=
  let '(m', e') := shl_align m e (fexp prec emax (Z.pos (digits2_pos m) + e)) in
  S754_finite s m' e'.

(** [Number::remainder], the [%] operator. The result of a remainder is
    always representable, so no rounding takes place. *)
Definition Number_remainder (n d : number) : number :=
  match n, d with
  | S754_nan, _ | _, S754_nan => NaN
  | S754_infinity _, _ => NaN
  | _, S754_infinity _ => n
  | _, S754_zero _ => NaN
  | S754_zero _, _ => n
  | S754_finite sn mn en, S754_finite _ md ed =>
      let ez := Z.min en ed in
      let x := Z.pos (fst (shl_align mn en ez)) in
      let y := Z.pos (fst (shl_align md ed ez)) in
      match Z.rem x y with
      | Z.pos r => finite_exact sn r ez
      | _ => S754_zero sn
      end
  end.

(** ** Numbers and strings *)

(** The decimal digits of a natural number, ["0"] for zero. *)
Definition decimal_digits (n : Z) : string := pretty (Z.to_N n).

Definition zeros (n : nat) : string := string_of_list_ascii (repeat "0"%char n).

(** Step 9 of [Number.prototype.toFixed] for a finite [x = m * 2^e] below
    10^21: the integer [n] for which [n / 10^f - x] is as close to zero as
    possible, the larger one when there are two. *)
Definition toFixed_scaled (m : positive) (e : Z) (f : Z) : Z :=
  if 0 <=? e then Z.pos m * 2 ^ e * 10 ^ f
  else (2 * Z.pos m * 10 ^ f + 2 ^ (- e)) / 2 ^ (1 - e).

(** Steps 9.b to 9.d: the digits of [n] with a decimal point before the last
    [f] of them, padded with zeros on the left to [f + 1] digits. *)
Definition toFixed_digits (n : Z) (f : Z) : string :=
  let m := decimal_digits n in
  if f =? 0 then m
  else
    let k := Z.of_nat (String.length m) in
    let '(m, k) :=
      if k <=? f then (zeros (Z.to_nat (f + 1 - k)) +:+ m, f + 1) else (m, k) in
    let a := substring 0 (Z.to_nat (k - f)) m in
    let b := substring (Z.to_nat (k - f)) (Z.to_nat f) m in
    a +:+ "." +:+ b.

(** Whether the finite positive [m * 2^e] is at least 10^21. *)
Definition at_least_1e21 (m : positive) (e : Z) : bool :=
  if 0 <=? e then 10 ^ 21 <=? Z.pos m * 2 ^ e
  else 10 ^ 21 * 2 ^ (- e) <=? Z.pos m.

(** The number nearest to the integer [n], ties to even. *)
Definition number_of_Z (n : Z) : number := binary_normalize prec emax n 0 false.

(** [Number::toString] for a finite integral number [x] of value
    [n >= 10^21], the only numbers [toFixed] prints this way: the shortest
    digit string [s] of length [k] with [s * 10^(n10 - k)] rounding to [x],
    the nearest to [x] (the even one on a tie) when two have that length,
    in exponential notation. *)
Definition shortest_digits (x : number) (n : Z) (n10 : Z) (k : Z) : option Z :=
  let p := 10 ^ (n10 - k) in
  let lo := n / p in
  let hi := lo + 1 in
  let ok_lo := Number_equal (number_of_Z (lo * p)) x in
  let ok_hi := Number_equal (number_of_Z (hi * p)) x in
  match ok_lo, ok_hi with
  | true, true =>
      match Z.compare (n - lo * p) (hi * p - n) with
      | Lt => Some lo
      | Gt => Some hi
      | Eq => Some (if Z.even lo then lo else hi)
      end
  | true, false => Some lo
  | false, true => Some hi
  | false, false => None
  end.

Fixpoint shortest_search (x : number) (n n10 : Z) (k : Z) (fuel : nat) : Z * Z :=
  match shortest_digits x n n10 k, fuel with
  | Some s, _ => (s, k)
  | None, O => (n / 10 ^ (n10 - k), k)
  | None, S fuel => shortest_search x n n10 (k + 1) fuel
  end.

Definition Number_toString_large (x : number) (n : Z) : string :=
  let n10 := Z.of_nat (String.length (decimal_digits n)) in
  let '(s, k) := shortest_search x n n10 1 16 in
  let '(s, n10) := if s =? 10 ^ k then (10 ^ (k - 1), n10 + 1) else (s, n10) in
  let d := decimal_digits s in
  let a := substring 0 1 d in
  let b := substring 1 (Z.to_nat (k - 1)) d in
  if k =? 1 then a +:+ "e+" +:+ decimal_digits (n10 - 1)
  else a +:+ "." +:+ b +:+ "e+" +:+ decimal_digits (n10 - 1).

(** [Number.prototype.toFixed (fractionDigits)]. The argument is an integer
    here, as at every call in this package. *)
Definition Number_prototype_toFixed (x : number) (fractionDigits : Z)
  : result string :=
  let f := fractionDigits in
  if (f <? 0) || (100 <? f) then Throw RangeError
  else
    match x with
    | S754_nan => Ok "NaN"
    | S754_infinity sx => Ok (if sx then "-Infinity" else "Infinity")
    | S754_zero _ => Ok (toFixed_digits 0 f)
    | S754_finite sx m e =>
        let s := if sx then "-" else "" in
        if at_least_1e21 m e
        then Ok (s +:+ Number_toString_large (S754_finite false m e) (Z.pos m * 2 ^ e))
        else Ok (s +:+ toFixed_digits (toFixed_scaled m e f) f)
    end.

(** *** [parseFloat] *)

Definition is_white_space (a : ascii) : bool :=
  match a with
  | "009" | "010" | "011" | "012" | "013" | " " => true
  | _ => false
  end%char.

Definition digit_of (a : ascii) : option Z :=
  let n := Z.of_nat (nat_of_ascii a) in
  if (48 <=? n) && (n <=? 57) then Some (n - 48) else None.

Fixpoint skip_white_space (l : list ascii) : list ascii :=
  match l with
  | a :: l' => if is_white_space a then skip_white_space l' else l
  | [] => []
  end.

(** The longest run of decimal digits at the head of [l]: its value, its
    length, and what follows it. *)
Fixpoint read_digits (acc : Z) (len : Z) (l : list ascii) : Z * Z * list ascii :=
  match l with
  | a :: l' =>
      match digit_of a with
      | Some d => read_digits (10 * acc + d) (len + 1) l'
      | None => (acc, len, l)
      end
  | [] => (acc, len, [])
  end.

Definition read_sign (l : list ascii) : bool * list ascii :=
  match l with
  | "-"%char :: l' => (true, l')
  | "+"%char :: l' => (false, l')
  | _ => (false, l)
  end.

(** [ExponentPart], worth 0 when the text does not continue with one. *)
Definition read_exponent (l : list ascii) : Z :=
  match l with
  | a :: l' =>
      if Ascii.eqb a "e" || Ascii.eqb a "E" then
        let '(neg, l'') := read_sign l' in
        let '(v, len, _) := read_digits 0 0 l'' in
        if len =? 0 then 0 else if neg then - v else v
      else 0
  | [] => 0
  end.

(** The number nearest to [m * 10^e], ties to even, with sign [s]. *)
Definition number_of_decimal (s : bool) (m : Z) (e : Z) : number :=
  match m with
  | Z.pos p =>
      if 0 <=? e then binary_normalize prec emax (cond_Zopp s (m * 10 ^ e)) 0 s
      else SFdiv prec emax (S754_finite s p 0)
                           (S754_finite false (Z.to_pos (10 ^ (- e))) 0)
  | _ => S754_zero s
  end.

Definition starts_with (p l : list ascii) : bool :=
  if decide (take (length p) l = p) then true else false.

(** [parseFloat]: the longest prefix of the trimmed text that is a
    [StrDecimalLiteral], NaN when there is none. *)
Definition parseFloat (text : string) : number :=
  let trimmed := skip_white_space (list_ascii_of_string text) in
  let '(neg, l) := read_sign trimmed in
  if starts_with (list_ascii_of_string "Infinity") l then S754_infinity neg
  else
    let '(int_value, int_len, l1) := read_digits 0 0 l in
    let '(value, frac_len, l2) :=
      match l1 with
      | "."%char :: l1' =>
          let '(v, len, l2) := read_digits int_value int_len l1' in
          (v, len - int_len, l2)
      | _ => (int_value, 0, l1)
      end in
    if (int_len =? 0) && (frac_len =? 0) then NaN
    else number_of_decimal neg value (read_exponent l2 - frac_len).

(** ** The [Number.prototype] extensions *)

Definition toFixedFloat (this : number) (digits : option Z) : result number :=
  let digits := default 35 digits in
  fixedValue ← Number_prototype_toFixed this digits;
  let floatValue := parseFloat fixedValue in
  Ok floatValue.

(** ** Values *)

(** Primitive values, as they occur in the properties of a cell record. *)
Inductive prim :=
| PUndefined
| PNull
| PBool (b : bool)
| PNumber (x : number)
| PString (s : string).

(** [interface CellAddress { c: number; r: number }] and
    [interface Range { s: CellAddress; e: CellAddress }] of the xlsx typings.
    Rows and columns are integers; they stay far below 2^53, where binary64
    arithmetic on them is exact. *)
Module Xlsx.
Record CellAddress := { c : Z; r : Z }.
Record Range := { s : CellAddress; e : CellAddress }.
End Xlsx.

Abbreviation CellObject := (gmap string prim).

(** What a property of a worksheet object may hold. *)
Inductive any :=
| VPrim (p : prim)
| VCell (cell : CellObject)
| VMerges (merges : list Xlsx.Range).

Abbreviation WorkSheet := (gmap string any).

Abbreviation undefined := (VPrim PUndefined).

(** [ToBoolean]. *)
Definition truthy_prim (p : prim) : bool :=
  match p with
  | PUndefined | PNull => false
  | PBool b => b
  | PNumber x =>
      match x with
      | S754_zero _ | S754_nan => false
      | _ => true
      end
  | PString s => negb (String.eqb s "")
  end.

Definition truthy (x : any) : bool :=
  match x with
  | VPrim p => truthy_prim p
  | VCell _ | VMerges _ => true
  end.

(** [IsStrictlyEqual] on primitives, the [===] operator. *)
Definition strict_eq (x y : prim) : bool :=
  match x, y with
  | PUndefined, PUndefined => true
  | PNull, PNull => true
  | PBool a, PBool b => Bool.eqb a b
  | PNumber a, PNumber b => Number_equal a b
  | PString a, PString b => String.eqb a b
  | _, _ => false
  end.

(** [typeof]. *)
Definition typeof (x : any) : string :=
  match x with
  | VPrim PUndefined => "undefined"
  | VPrim PNull => "object"
  | VPrim (PBool _) => "boolean"
  | VPrim (PNumber _) => "number"
  | VPrim (PString _) => "string"
  | VCell _ | VMerges _ => "object"
  end.

(** [worksheet[key]]: reading a property an object does not have gives
    [undefined]. *)
Definition get (worksheet : WorkSheet) (key : string) : any :=
  default undefined (worksheet !! key).

(** [x.key] for the property names the helpers read, ["t"] and ["v"].
    Reading a property of [undefined] or [null] throws; no primitive wrapper
    and no array has a property of either name, so there the read gives
    [undefined]. *)
Definition get_prop (x : any) (key : string) : result prim :=
  match x with
  | VPrim PUndefined | VPrim PNull => Throw TypeError
  | VPrim _ | VMerges _ => Ok PUndefined
  | VCell cell => Ok (default PUndefined (cell !! key))
  end.

(** [x?.key]. *)
Definition get_prop_opt (x : any) (key : string) : result prim :=
  match x with
  | VPrim PUndefined | VPrim PNull => Ok PUndefined
  | _ => get_prop x key
  end.

(** ** Typed single-cell readers *)

Definition getCellNumericValue (worksheet : WorkSheet) (cellAddress : string)
  : result prim :=
  let cell := get worksheet cellAddress in
  guard_fails ←
    (if negb (truthy cell) then Ok true
     else t ← get_prop cell "t"; Ok (negb (strict_eq t (PString "n"))));
  if (guard_fails : bool) then Ok (PNumber zero)
  else get_prop cell "v".

Definition getCellStringValue (worksheet : WorkSheet) (cellAddress : string)
  : result prim :=
  let cell := get worksheet cellAddress in
  guard_fails ←
    (if negb (truthy cell) then Ok true
     else t ← get_prop cell "t"; Ok (negb (strict_eq t (PString "s"))));
  if (guard_fails : bool) then Ok (PString "")
  else get_prop cell "v".

(** ** The cell writer *)

(** The writer's parameter type [number | string | CellObject | undefined]. *)
Inductive CellValue :=
| OfNumber (x : number)
| OfString (s : string)
| OfCellObject (cell : CellObject)
| OfUndefined.

Definition to_any (value : CellValue) : any :=
  match value with
  | OfNumber x => VPrim (PNumber x)
  | OfString s => VPrim (PString s)
  | OfCellObject cell => VCell cell
  | OfUndefined => undefined
  end.

(** The literal [1]. *)
Definition one : number := S754_finite false 4503599627370496 (-52).

Definition setCellValue (worksheet : WorkSheet) (cellAddress : string)
    (value : CellValue) (formatCell : option bool) : result WorkSheet :=
  let formatCell := default true formatCell in
  if negb formatCell || String.eqb (typeof (to_any value)) "object" then
    Ok (<[cellAddress := to_any value]> worksheet)
  else
    match value with
    | OfUndefined =>
        Ok (<[cellAddress := VCell {[ "v" := PUndefined ]}]> worksheet)
    | OfString s =>
        Ok (<[cellAddress :=
                VCell (<[ "t" := PString "s" ]> {[ "v" := PString s ]})]> worksheet)
    | OfNumber x =>
        let isWholeNumber := Number_equal (Number_remainder x one) zero in
        fixedValue ← (if isWholeNumber then Ok x else toFixedFloat x None);
        let format := if isWholeNumber then "0" else "0.0000" in
        Ok (<[cellAddress :=
                VCell (<[ "t" := PString "n" ]>
                       (<[ "v" := PNumber fixedValue ]>
                        {[ "z" := PString format ]}))]> worksheet)
    | OfCellObject cell =>
        (* not reached: [typeof] of an object is ["object"] *)
        Ok (<[cellAddress := VCell cell]> worksheet)
    end.

(** ** The cross-sheet copier *)

(** The two worksheets are references, possibly to one object: the sheets
    live in a store and the copier takes their locations. *)
Abbreviation sheets := (gmap nat (gmap string any)).

Definition sheet_at (h : sheets) (l : nat) : WorkSheet := default ∅ (h !! l).

Definition duplicateToSheet (h : sheets) (sourceSheet targetSheet : nat)
    (sourceCellAddress : string) (targetCellAddress : option string)
  : result sheets :=
  let cellAddress := default sourceCellAddress targetCellAddress in
  let sourceCell := get (sheet_at h sourceSheet) cellAddress in
  Ok (<[targetSheet := <[cellAddress := sourceCell]> (sheet_at h targetSheet)]> h).

(** ** The xlsx collaborator *)

(** The three routines of [xlsx.utils] the helpers call. Decoding a
    malformed text may throw; the helpers do not catch it. *)
Class XlsxUtils := {
  decode_range : string → result Xlsx.Range;
  decode_cell : string → result Xlsx.CellAddress;
  encode_cell : Xlsx.CellAddress → string
}.

(** [for (let i = lo; i <= hi; i++) body], threading the loop's state and
    stopping at the first exception. *)
Equations? for_upto {S : Type} (i hi : Z) (body : Z → S → result S) (s : S)
  : result S by wf (Z.to_nat (hi + 1 - i)) lt :=
  for_upto i hi body s with decide (i ≤ hi) := {
    | left _ with body i s := {
        | Ok s' => for_upto (i + 1) hi body s';
        | Throw err => Throw err };
    | right _ => Ok s }.
Proof. lia. Qed.

(** [array.push (x)]. *)
Definition push {A : Type} (array : list A) (x : A) : list A := array ++ [x].

Section Helpers.
Context {utils : XlsxUtils}.

(** ** The range reader *)

Definition getRangeValues (worksheet : WorkSheet) (range : string)
  : result (list (list prim)) :=
  decodedRange ← decode_range range;
  for_upto (Xlsx.r (Xlsx.s decodedRange)) (Xlsx.r (Xlsx.e decodedRange))
    (fun row values =>
       rowValues ←
         for_upto (Xlsx.c (Xlsx.s decodedRange)) (Xlsx.c (Xlsx.e decodedRange))
           (fun col rowValues =>
              let cellAddress := encode_cell {| Xlsx.r := row; Xlsx.c := col |} in
              let cell := get worksheet cellAddress in
              v ← get_prop_opt cell "v";
              Ok (push rowValues v))
           [];
       Ok (push values rowValues))
    [].

(** ** The merge registrar *)

(** [x.push (range)] on whatever the ['!merges'] property holds: only an
    array has the method. *)
Definition merges_push (x : any) (range : Xlsx.Range) : result any :=
  match x with
  | VMerges merges => Ok (VMerges (push merges range))
  | _ => Throw TypeError
  end.

Definition mergeCells (worksheet : WorkSheet) (startAddress endAddress : string)
  : result WorkSheet :=
  startCell ← decode_cell startAddress;
  endCell ← decode_cell endAddress;
  let mergedRange :=
    {| Xlsx.s := {| Xlsx.r := Xlsx.r startCell; Xlsx.c := Xlsx.c startCell |};
       Xlsx.e := {| Xlsx.r := Xlsx.r endCell; Xlsx.c := Xlsx.c endCell |} |} in
  let worksheet :=
    if negb (truthy (get worksheet "!merges"))
    then <["!merges" := VMerges []]> worksheet
    else worksheet in
  merges ← merges_push (get worksheet "!merges") mergedRange;
  Ok (<["!merges" := merges]> worksheet).

End Helpers.

(** ** A1 addressing *)

Fixpoint read_letters (acc : Z) (len : Z) (l : list ascii) : Z * Z * list ascii :=
  match l with
  | a :: l' =>
      let cc := Z.of_nat (nat_of_ascii a) in
      if (65 <=? cc) && (cc <=? 90) then read_letters (26 * acc + (cc - 64)) (len + 1) l'
      else (acc, len, l)
  | [] => (acc, len, [])
  end.

(** Modelled from the spec: the xlsx package is an external collaborator and
    not part of the repository. Cells are addressed by labels such as ["A1"]:
    column letters, [A] for column 0, then the row number, [1] for row 0.
    Any other text is malformed and decoding it fails. *)
Definition A1_decode_cell (cstr : string) : result Xlsx.CellAddress :=
  let '(C, clen, l) := read_letters 0 0 (list_ascii_of_string cstr) in
  let '(R, rlen, l') := read_digits 0 0 l in
  if (0 <? clen) && (0 <? rlen) && (1 <=? R) && bool_decide (l' = [])
  then Ok {| Xlsx.c := C - 1; Xlsx.r := R - 1 |}
  else Throw Error.

(** Modelled from the spec: a range is written top-left:bottom-right, as in
    ["A1:B2"], and decodes to the two corners; a single address stands for
    the one-cell range. *)
Definition A1_decode_range (range : string) : result Xlsx.Range :=
  match index 0 ":" range with
  | None =>
      cell ← A1_decode_cell range;
      Ok {| Xlsx.s := cell; Xlsx.e := cell |}
  | Some idx =>
      s ← A1_decode_cell (substring 0 idx range);
      e ← A1_decode_cell (substring (S idx) (String.length range - S idx) range);
      Ok {| Xlsx.s := s; Xlsx.e := e |}
  end.

(** The letters of column [col - 1]. *)
Equations? encode_col (col : Z) : string by wf (Z.to_nat col) lt :=
  encode_col col with decide (0 < col) := {
    | left _ =>
        encode_col ((col - 1) / 26)
        +:+ String (ascii_of_nat (Z.to_nat ((col - 1) mod 26 + 65))) "";
    | right _ => "" }.
Proof.
  assert ((col - 1) / 26 < col); [|lia].
  apply Z.div_lt_upper_bound; lia.
Qed.

(** Modelled from the spec: the inverse of decoding, from coordinates to
    the label. *)
Definition A1_encode_cell (cell : Xlsx.CellAddress) : string :=
  encode_col (Xlsx.c cell + 1) +:+ pretty (Xlsx.r cell + 1).

#[global] Instance A1_utils : XlsxUtils := {|
  decode_range := A1_decode_range;
  decode_cell := A1_decode_cell;
  encode_cell := A1_encode_cell
|}.

(** ** Vocabulary of the specification *)

#[global] Instance number_eq_dec : EqDecision number.
Proof. solve_decision. Defined.
#[global] Instance prim_eq_dec : EqDecision prim.
Proof. solve_decision. Defined.

(** The raw value of a stored cell record, [undefined] where no record is
    stored or the record has none. *)
Definition raw_value (x : any) : prim :=
  match x with
  | VCell cell => default PUndefined (cell !! "v")
  | _ => PUndefined
  end.

(** The type tag of a stored cell record. *)
Definition type_tag (x : any) : prim :=
  match x with
  | VCell cell => default PUndefined (cell !! "t")
  | _ => PUndefined
  end.

(** The raw value of a cell whose tag is numeric, [undefined] otherwise. *)
Definition numeric_value (x : any) : prim :=
  if decide (type_tag x = PString "n") then raw_value x else PUndefined.

(** The inclusive rectangle of a range in row-major order, one entry per
    position. *)
Definition rectangle {A : Type} (range : Xlsx.Range) (entry : Z → Z → A)
  : list (list A) :=
  (fun row =>
     (fun col => entry row col)
       <$> seqZ (Xlsx.c (Xlsx.s range))
                (Xlsx.c (Xlsx.e range) + 1 - Xlsx.c (Xlsx.s range)))
    <$> seqZ (Xlsx.r (Xlsx.s range))
             (Xlsx.r (Xlsx.e range) + 1 - Xlsx.r (Xlsx.s range)).

(** The entry the range reader produces for a position: the raw value of
    whatever record is stored at the position's address. *)
Definition raw_entry {utils : XlsxUtils} (worksheet : WorkSheet) (row col : Z)
  : prim :=
  raw_value (get worksheet (encode_cell {| Xlsx.r := row; Xlsx.c := col |})).

(** The entry the specification describes: the raw value only under a
    numeric tag. *)
Definition numeric_entry {utils : XlsxUtils} (worksheet : WorkSheet)
    (row col : Z) : prim :=
  numeric_value (get worksheet (encode_cell {| Xlsx.r := row; Xlsx.c := col |})).

(** The range reader as the specification describes it. *)
Definition reads_numeric_rectangle {utils : XlsxUtils}
    (worksheet : WorkSheet) (range : string) : Prop :=
  ∀ decodedRange,
    decode_range range = Ok decodedRange →
    getRangeValues worksheet range
    = Ok (rectangle decodedRange (numeric_entry worksheet)).

(** A cell record tagged numeric or string, holding [x]. *)
Definition numeric_cell (x : prim) : CellObject :=
  <[ "t" := PString "n" ]> {[ "v" := x ]}.
Definition string_cell (x : prim) : CellObject :=
  <[ "t" := PString "s" ]> {[ "v" := x ]}.

(** The rectangle from A1 to B2. *)
Definition A1_B2 : Xlsx.Range :=
  {| Xlsx.s := {| Xlsx.c := 0; Xlsx.r := 0 |};
     Xlsx.e := {| Xlsx.c := 1; Xlsx.r := 1 |} |}.

(** A sheet with the numbers 1, 2, 3 and 4 in A1, B1, A2 and B2. *)
Definition sheet_1234 : WorkSheet :=
  <["A1" := VCell (numeric_cell (PNumber (number_of_Z 1)))]>
    (<["B1" := VCell (numeric_cell (PNumber (number_of_Z 2)))]>
       (<["A2" := VCell (numeric_cell (PNumber (number_of_Z 3)))]>
          {["B2" := VCell (numeric_cell (PNumber (number_of_Z 4)))]})).

(** A sheet whose only cell, A1, holds the text ["x"]. *)
Definition sheet_x : WorkSheet :=
  {["A1" := VCell (string_cell (PString "x"))]}.

(** The merges a worksheet has registered, none when it has no list. *)
Definition registered_merges (worksheet : WorkSheet) : list Xlsx.Range :=
  match worksheet !! "!merges" with
  | Some (VMerges merges) => merges
  | _ => []
  end.

(** A store of two sheets: [sheet_x] at location 0, an empty sheet at 1. *)
Definition two_sheets : sheets := <[0%nat := sheet_x]> {[1%nat := ∅]}.

(** A whole number: a finite number whose value [m * 2^e] is an integer,
    that is, [e] is not negative or [m] is a multiple of [2^(-e)]. *)
Definition whole (x : number) : Prop :=
  match x with
  | S754_zero _ => True
  | S754_finite _ m e => Z.pos m mod 2 ^ Z.max 0 (- e) = 0
  | _ => False
  end.

#[global] Instance whole_dec x : Decision (whole x).
Proof. destruct x; simpl; apply _. Defined.

(** The cell records the writer builds. *)
Definition string_record (s : string) : CellObject := string_cell (PString s).

Definition numeric_record (x : number) (format : string) : CellObject :=
  <[ "t" := PString "n" ]> (<[ "v" := PNumber x ]> {[ "z" := PString format ]}).

(** The literals [5], [5.25], [0.30000000000000004] and [0.3]. *)
Definition five : number := number_of_decimal false 5 0.
Definition five_and_a_quarter : number := number_of_decimal false 525 (-2).
Definition three_tenths_and_an_ulp : number :=
  number_of_decimal false 30000000000000004 (-17).
Definition three_tenths : number := number_of_decimal false 3 (-1).

(** The literal [1.1234567890123456789] of the declaration's example. *)
Definition example_value : number :=
  number_of_decimal false 11234567890123456789 (-19).

(** ** [countDecimals] *)

(** [Math.floor]: a number that is not finite, a zero and an integral number
    are returned as they are; any other number gives the greatest integer
    not above it, +0 for a positive number below 1. *)
Definition Math_floor (x : number) : number :=
  match x with
  | S754_finite s m e =>
      if 0 <=? e then x
      else if Z.pos m mod 2 ^ (- e) =? 0 then x
      else number_of_Z (cond_Zopp s (Z.pos m) / 2 ^ (- e))
  | _ => x
  end.

(** The integer part of [m * 2^e * 10^d]. *)
Definition scaled_floor (m : positive) (e : Z) (d : Z) : Z :=
  (Z.pos m * 2 ^ Z.max 0 e * 10 ^ Z.max 0 d)
  / (2 ^ Z.max 0 (- e) * 10 ^ Z.max 0 (- d)).

(** The [n] with [10^(n-1) <= m * 2^e < 10^n], read off the number of digits
    of the value scaled by 10^330, whose integer part is not 0 for any
    binary64 value. *)
Definition decimal_exponent (m : positive) (e : Z) : Z :=
  Z.of_nat (String.length (decimal_digits (scaled_floor m e 330))) - 330.

(** The digit string [s] of length [k] with [s * 10^(n - k)] rounding to
    [x = m * 2^e], when there is one: of the two candidates around [x] the
    one that rounds to [x], the nearer one when both do, the even one on a
    tie. *)
Definition shortest_digits_of (x : number) (m : positive) (e : Z) (n k : Z)
  : option Z :=
  let num := Z.pos m * 2 ^ Z.max 0 e * 10 ^ Z.max 0 (k - n) in
  let den := 2 ^ Z.max 0 (- e) * 10 ^ Z.max 0 (n - k) in
  let lo := num / den in
  let hi := lo + 1 in
  let ok_lo := Number_equal (number_of_decimal false lo (n - k)) x in
  let ok_hi := Number_equal (number_of_decimal false hi (n - k)) x in
  match ok_lo, ok_hi with
  | true, true =>
      match Z.compare (num - lo * den) (hi * den - num) with
      | Lt => Some lo
      | Gt => Some hi
      | Eq => Some (if Z.even lo then lo else hi)
      end
  | true, false => Some lo
  | false, true => Some hi
  | false, false => None
  end.

(** The least [k], from [k] on, that has such a digit string; 17 digits
    always do. *)
Fixpoint shortest_search_of (x : number) (m : positive) (e : Z) (n k : Z)
    (fuel : nat) : Z * Z :=
  match shortest_digits_of x m e n k, fuel with
  | Some s, _ => (s, k)
  | None, O => (scaled_floor m e (k - n), k)
  | None, S fuel => shortest_search_of x m e n (k + 1) fuel
  end.

(** [Number::toString] for a finite positive number, in radix 10: the
    shortest digits [s], their count [k] and the decimal exponent [n], laid
    out as an integer, with a decimal point, with leading zeros, or in
    exponential notation. *)
Definition Number_toString_positive (m : positive) (e : Z) : string :=
  let x := S754_finite false m e in
  let n := decimal_exponent m e in
  let '(s, k) := shortest_search_of x m e n 1 16 in
  let '(s, n) := if s =? 10 ^ k then (10 ^ (k - 1), n + 1) else (s, n) in
  let d := decimal_digits s in
  if (k <=? n) && (n <=? 21) then d +:+ zeros (Z.to_nat (n - k))
  else if (0 <? n) && (n <=? 21) then
    substring 0 (Z.to_nat n) d +:+ "." +:+ substring (Z.to_nat n) (Z.to_nat (k - n)) d
  else if (-6 <? n) && (n <=? 0) then "0." +:+ zeros (Z.to_nat (- n)) +:+ d
  else
    let c := if n - 1 <? 0 then "-" else "+" in
    if k =? 1 then d +:+ "e" +:+ c +:+ decimal_digits (Z.abs (n - 1))
    else substring 0 1 d +:+ "." +:+ substring 1 (Z.to_nat (k - 1)) d
         +:+ "e" +:+ c +:+ decimal_digits (Z.abs (n - 1)).

(** [Number.prototype.toString ()]. *)
Definition Number_toString (x : number) : string :=
  match x with
  | S754_nan => "NaN"
  | S754_zero _ => "0"
  | S754_infinity s => if s then "-Infinity" else "Infinity"
  | S754_finite s m e => (if s then "-" else "") +:+ Number_toString_positive m e
  end.

Fixpoint split_go (sep : ascii) (cur : string) (l : list ascii) : list string :=
  match l with
  | [] => [String.rev cur]
  | a :: l' =>
      if Ascii.eqb a sep then String.rev cur :: split_go sep "" l'
      else split_go sep (String a cur) l'
  end.

(** [String.prototype.split (sep)] for a one-character separator. *)
Definition String_split (sep : ascii) (s : string) : list string :=
  split_go sep "" (list_ascii_of_string s).

(** [Number.prototype.countDecimals]; the count it returns is an integer. *)
Definition countDecimals (this : number) : Z :=
  if Number_equal (Math_floor this) this then 0
  else
    match String_split "." (Number_toString this) !! 1%nat with
    | Some part => Z.of_nat (String.length part)
    | None => 0
    end.

(** ** Further vocabulary *)

(** What the numeric reader returns for the cell of a position. *)
Definition numeric_reading {utils : XlsxUtils} (worksheet : WorkSheet)
    (row col : Z) : prim :=
  match getCellNumericValue worksheet
          (encode_cell {| Xlsx.r := row; Xlsx.c := col |}) with
  | Ok v => v
  | Throw _ => PUndefined
  end.

(** A position of the inclusive rectangle of a range. *)
Definition in_range (range : Xlsx.Range) (row col : Z) : Prop :=
  Xlsx.r (Xlsx.s range) ≤ row ≤ Xlsx.r (Xlsx.e range)
  ∧ Xlsx.c (Xlsx.s range) ≤ col ≤ Xlsx.c (Xlsx.e range).

(** The number of rows and of columns of the rectangle of a range, none
    when the end lies before the start. *)
Definition row_count (range : Xlsx.Range) : nat :=
  Z.to_nat (Xlsx.r (Xlsx.e range) + 1 - Xlsx.r (Xlsx.s range)).
Definition column_count (range : Xlsx.Range) : nat :=
  Z.to_nat (Xlsx.c (Xlsx.e range) + 1 - Xlsx.c (Xlsx.s range)).

(** The one-cell range of a cell. *)
Definition single (cell : Xlsx.CellAddress) : Xlsx.Range :=
  {| Xlsx.s := cell; Xlsx.e := cell |}.

(** A number that is neither whole nor fractional: NaN or an infinity. *)
Definition non_finite (x : number) : Prop :=
  match x with
  | S754_nan | S754_infinity _ => True
  | _ => False
  end.

(** A fractional number: finite, with a value that is not an integer. *)
Definition fractional (x : number) : Prop :=
  match x with
  | S754_finite _ m e => Z.pos m mod 2 ^ Z.max 0 (- e) ≠ 0
  | _ => False
  end.

(** The cell at row 2, column 2, whose label is C3. *)
Definition C3 : Xlsx.CellAddress := {| Xlsx.c := 2; Xlsx.r := 2 |}.

(** The literal [42]. *)
Definition forty_two : number := number_of_Z 42.

(** The inverted range from B2 back to A1. *)
Definition B2_A1 : Xlsx.Range :=
  {| Xlsx.s := {| Xlsx.c := 1; Xlsx.r := 1 |};
     Xlsx.e := {| Xlsx.c := 0; Xlsx.r := 0 |} |}.

(** * Properties *)

(** ** Numbers and their text *)

(** The literals as binary64 values: 5 = 5 * 2^50 * 2^-50, and the two
    neighbours 0.3 and 0.30000000000000004, one unit in the last place
    apart. *)
Example literal_values :
  five = S754_finite false 5629499534213120 (-50)
  ∧ five_and_a_quarter = S754_finite false 5910974510923776 (-50)
  ∧ three_tenths = S754_finite false 5404319552844595 (-54)
  ∧ three_tenths_and_an_ulp = S754_finite false 5404319552844596 (-54)
  ∧ number_of_Z 1 = one.
Proof. repeat split; by vm_compute. Qed.

Example toFixed_texts :
  Number_prototype_toFixed example_value 6 = Ok "1.123457"
  ∧ Number_prototype_toFixed five_and_a_quarter 35
    = Ok "5.25000000000000000000000000000000000"
  ∧ Number_prototype_toFixed three_tenths_and_an_ulp 35
    = Ok "0.30000000000000004440892098500626162"
  ∧ Number_prototype_toFixed three_tenths_and_an_ulp 14
    = Ok "0.30000000000000"
  ∧ Number_prototype_toFixed (number_of_Z (10 ^ 21)) 2 = Ok "1e+21"
  ∧ Number_prototype_toFixed five 101 = Throw RangeError.
Proof. repeat split; by vm_compute. Qed.

Example parseFloat_values :
  parseFloat "5.25" = five_and_a_quarter
  ∧ parseFloat "  5xyz" = five
  ∧ parseFloat "1e+21" = number_of_Z (10 ^ 21)
  ∧ parseFloat "-Infinity" = S754_infinity true
  ∧ parseFloat "." = NaN.
Proof. repeat split; by vm_compute. Qed.

(** The example of the declaration: [toFixedFloat(6)] of
    1.1234567890123456789 is 1.123457. *)
Example toFixedFloat_six_digits :
  toFixedFloat example_value (Some 6) = Ok (parseFloat "1.123457").
Proof. by vm_compute. Qed.

(** ** Loops *)

Lemma for_upto_step {S : Type} (i hi : Z) (body : Z → S → result S) (s : S) :
  for_upto i hi body s =
    if decide (i ≤ hi)
    then match body i s with
         | Ok s' => for_upto (i + 1) hi body s'
         | Throw err => Throw err
         end
    else Ok s.
Proof.
  simp for_upto. destruct (decide (i ≤ hi)); simpl; [|done].
  destruct (body i s); done.
Qed.

Lemma seqZ_step (i len : Z) : 0 < len → seqZ i len = i :: seqZ (i + 1) (len - 1).
Proof.
  intros Hlen. rewrite (seqZ_cons i len) by lia.
  do 2 f_equal; lia.
Qed.

(** A loop whose body cannot throw is a left fold over the index range. *)
Lemma for_upto_pure {S : Type} (f : Z → S → S) (body : Z → S → result S) :
  (∀ j s, body j s = Ok (f j s)) →
  ∀ i hi s,
    for_upto i hi body s = Ok (foldl (fun s j => f j s) s (seqZ i (hi + 1 - i))).
Proof.
  intros Hbody i hi.
  remember (Z.to_nat (hi + 1 - i)) as n eqn:Hn.
  revert i Hn. induction n as [|n IH]; intros i Hn s.
  - rewrite for_upto_step. destruct (decide (i ≤ hi)); [lia|].
    rewrite seqZ_nil by lia. done.
  - rewrite for_upto_step. destruct (decide (i ≤ hi)); [|lia].
    rewrite Hbody, IH by lia.
    rewrite (seqZ_step i) by lia. simpl.
    do 3 f_equal. lia.
Qed.

Lemma foldl_push {A B : Type} (g : B → A) (l : list B) (acc : list A) :
  foldl (fun acc j => push acc (g j)) acc l = acc ++ (g <$> l).
Proof.
  revert acc. induction l as [|x l IH]; intros acc; simpl.
  - by rewrite app_nil_r.
  - rewrite IH. unfold push. by rewrite <- app_assoc.
Qed.

(** ** Reading a property *)

Lemma get_prop_opt_v (x : any) : get_prop_opt x "v" = Ok (raw_value x).
Proof. by destruct x as [[]| |]. Qed.

Lemma get_lookup (worksheet : WorkSheet) (key : string) (x : any) :
  worksheet !! key = Some x → get worksheet key = x.
Proof. unfold get. by intros ->. Qed.

Lemma get_insert (worksheet : WorkSheet) (key : string) (x : any) :
  get (<[key := x]> worksheet) key = x.
Proof. unfold get. by rewrite lookup_insert_eq. Qed.

(** ** The range reader *)

Section RangeReader.
Context {utils : XlsxUtils}.

(** What the range reader does. For every worksheet and every range text
    that decodes, [getRangeValues] returns the inclusive decoded rectangle in
    row-major order, each position holding the raw value of the cell record
    stored at its address, whatever the record's type tag, and [undefined]
    where no record is stored. *)
Theorem getRangeValues_raw_rectangle
    (worksheet : WorkSheet) (range : string) (decodedRange : Xlsx.Range) :
  decode_range range = Ok decodedRange →
  getRangeValues worksheet range
  = Ok (rectangle decodedRange (raw_entry worksheet)).
Proof.
  intros Hdecode. unfold getRangeValues. rewrite Hdecode. simpl.
  rewrite (for_upto_pure
             (fun row values =>
                push values
                  (raw_entry worksheet row
                     <$> seqZ (Xlsx.c (Xlsx.s decodedRange))
                              (Xlsx.c (Xlsx.e decodedRange) + 1
                               - Xlsx.c (Xlsx.s decodedRange))))).
  - by rewrite foldl_push.
  - intros row values.
    rewrite (for_upto_pure
               (fun col rowValues => push rowValues (raw_entry worksheet row col))).
    + by rewrite foldl_push.
    + intros col rowValues. by rewrite get_prop_opt_v.
Qed.

End RangeReader.

(** The reader on the sheet of the specification's example: [[1, 2], [3, 4]]. *)
Lemma getRangeValues_raw_rectangle_witness :
  @decode_range A1_utils "A1:B2" = Ok A1_B2
  ∧ getRangeValues (utils := A1_utils) sheet_1234 "A1:B2"
    = Ok [[PNumber (number_of_Z 1); PNumber (number_of_Z 2)];
          [PNumber (number_of_Z 3); PNumber (number_of_Z 4)]].
Proof.
  split; [reflexivity|].
  rewrite (getRangeValues_raw_rectangle (utils := A1_utils) sheet_1234 "A1:B2" A1_B2)
    by reflexivity.
  vm_compute. reflexivity.
Defined.

(** C2 fails on the code: the reader never looks at a cell's type tag. On
    a sheet whose cell A1 is tagged as a string and holds the text ["x"],
    reading the range A1:A1 returns that text, where the claim, like the
    function's own description of its result as numbers or [undefined],
    leaves the slot [undefined]. *)
Lemma getRangeValues_ignores_type_tag :
  sheet_x !! "A1" = Some (VCell (string_cell (PString "x")))
  ∧ getRangeValues (utils := A1_utils) sheet_x "A1:A1" = Ok [[PString "x"]]
  ∧ numeric_entry (utils := A1_utils) sheet_x 0 0 = PUndefined
  ∧ ¬ reads_numeric_rectangle (utils := A1_utils) sheet_x "A1:A1".
Proof.
  split; [reflexivity|]. split; [by vm_compute|]. split; [reflexivity|].
  intros Hclaim.
  specialize (Hclaim {| Xlsx.s := {| Xlsx.c := 0; Xlsx.r := 0 |};
                        Xlsx.e := {| Xlsx.c := 0; Xlsx.r := 0 |} |} eq_refl).
  vm_compute in Hclaim. discriminate Hclaim.
Qed.

(** ** The typed readers *)

Lemma strict_eq_string (p : prim) (s : string) :
  strict_eq p (PString s) = bool_decide (p = PString s).
Proof.
  destruct p as [| | |x|s']; simpl; try done.
  destruct (String.eqb_spec s' s) as [->|Hne].
  - by rewrite bool_decide_eq_true_2.
  - rewrite bool_decide_eq_false_2; [done|]. by intros [= ->].
Qed.

(** What either reader does with the entry it finds, [tag] being the tag it
    asks for and [fallback] its default. *)
Lemma typed_read (cell : any) (tag : string) (fallback : prim) :
  (guard_fails ←
     (if negb (truthy cell) then Ok true
      else t ← get_prop cell "t"; Ok (negb (strict_eq t (PString tag))));
   if (guard_fails : bool) then Ok fallback else get_prop cell "v")
  = Ok (if decide (type_tag cell = PString tag) then raw_value cell else fallback).
Proof.
  destruct cell as [p|cell|merges]; simpl.
  - destruct p as [| |b|x|s]; simpl; try done.
    + by destruct b.
    + by destruct x.
    + by destruct (negb (s =? "")%string).
  - rewrite strict_eq_string.
    destruct (decide (default PUndefined (cell !! "t") = PString tag)) as [Ht|Ht].
    + by rewrite bool_decide_eq_true_2.
    + by rewrite bool_decide_eq_false_2.
  - done.
Qed.

Lemma getCellNumericValue_read (worksheet : WorkSheet) (cellAddress : string) :
  getCellNumericValue worksheet cellAddress
  = Ok (if decide (type_tag (get worksheet cellAddress) = PString "n")
        then raw_value (get worksheet cellAddress) else PNumber zero).
Proof. apply typed_read. Qed.

Lemma getCellStringValue_read (worksheet : WorkSheet) (cellAddress : string) :
  getCellStringValue worksheet cellAddress
  = Ok (if decide (type_tag (get worksheet cellAddress) = PString "s")
        then raw_value (get worksheet cellAddress) else PString "").
Proof. apply typed_read. Qed.

(** The tag of a stored record is [tag] exactly when its ["t"] property
    holds that string. *)
Lemma type_tag_cell (cell : CellObject) (tag : string) :
  type_tag (VCell cell) = PString tag ↔ cell !! "t" = Some (PString tag).
Proof.
  simpl. destruct (cell !! "t") as [t|]; simpl; split; congruence.
Qed.

(** C5. Neither reader ever throws. The numeric reader returns the stored
    raw value when a cell record tagged ['n'] is stored at the address and 0
    when nothing is stored there or the tag is another; the string reader
    likewise, with the tag ['s'] and the empty string. *)
Theorem typed_readers_default (worksheet : WorkSheet) (cellAddress : string) :
  getCellNumericValue worksheet cellAddress
  = Ok (match worksheet !! cellAddress with
        | Some (VCell cell) =>
            if decide (cell !! "t" = Some (PString "n"))
            then default PUndefined (cell !! "v")
            else PNumber zero
        | _ => PNumber zero
        end)
  ∧ getCellStringValue worksheet cellAddress
    = Ok (match worksheet !! cellAddress with
          | Some (VCell cell) =>
              if decide (cell !! "t" = Some (PString "s"))
              then default PUndefined (cell !! "v")
              else PString ""
          | _ => PString ""
          end).
Proof.
  rewrite getCellNumericValue_read, getCellStringValue_read. unfold get.
  destruct (worksheet !! cellAddress) as [[p|cell|merges]|]; simpl; try done.
  split; f_equal;
    destruct (cell !! "t") as [t|]; simpl; repeat case_decide; congruence.
Qed.

(** ** The cell writer *)

(** The number path never throws: 35 is a legal digit count. *)
Lemma toFixedFloat_default_returns (x : number) :
  toFixedFloat x None
  = Ok (match Number_prototype_toFixed x 35 with
        | Ok text => parseFloat text
        | Throw _ => NaN
        end)
  ∧ ∃ text, Number_prototype_toFixed x 35 = Ok text.
Proof.
  unfold toFixedFloat, Number_prototype_toFixed. simpl.
  destruct x as [s|s| |s m e]; simpl; eauto.
  destruct (at_least_1e21 m e); simpl; eauto.
Qed.

(** Whatever it is given, the writer returns, having assigned one property. *)
Lemma setCellValue_assigns (worksheet : WorkSheet) (cellAddress : string)
    (value : CellValue) (formatCell : option bool) :
  ∃ stored, setCellValue worksheet cellAddress value formatCell
            = Ok (<[cellAddress := stored]> worksheet).
Proof.
  unfold setCellValue.
  destruct (negb (default true formatCell) || _); [eauto|].
  destruct value as [x|s|cell|]; eauto.
  destruct (Number_equal (Number_remainder x one) zero); simpl; [eauto|].
  destruct (toFixedFloat_default_returns x) as [-> _]. simpl. eauto.
Qed.

(** C3, as amended. With formatting enabled, by [true] or by leaving the
    flag out, writing a string stores a string-tagged record holding exactly
    that string; with the flag [false] the string itself is stored, verbatim
    and untagged. *)
Theorem setCellValue_string (worksheet : WorkSheet) (cellAddress : string)
    (s : string) :
  setCellValue worksheet cellAddress (OfString s) (Some true)
  = Ok (<[cellAddress := VCell (string_record s)]> worksheet)
  ∧ setCellValue worksheet cellAddress (OfString s) None
    = Ok (<[cellAddress := VCell (string_record s)]> worksheet)
  ∧ setCellValue worksheet cellAddress (OfString s) (Some false)
    = Ok (<[cellAddress := VPrim (PString s)]> worksheet).
Proof. done. Qed.

(** C3, as stated, fails: with the flag [false] no record is stored. *)
Lemma setCellValue_string_unformatted :
  setCellValue ∅ "A1" (OfString "x") (Some false)
  ≠ Ok (<["A1" := VCell (string_record "x")]> ∅).
Proof.
  intros Heq.
  assert (VPrim (PString "x") = VCell (string_record "x")) as Habsurd; [|done].
  apply (f_equal (fun r => match r with
                           | Ok worksheet => get worksheet "A1"
                           | Throw _ => undefined
                           end)) in Heq.
  simpl in Heq. by rewrite !get_insert in Heq.
Qed.

(** C7. Writing a cell record tagged numeric with the formatting flag
    [false] and reading the address back with the numeric reader returns
    the record's value. *)
Theorem write_read_numeric_record (worksheet : WorkSheet) (cellAddress : string)
    (cell : CellObject) :
  cell !! "t" = Some (PString "n") →
  ∃ written,
    setCellValue worksheet cellAddress (OfCellObject cell) (Some false)
    = Ok written
    ∧ getCellNumericValue written cellAddress
      = Ok (default PUndefined (cell !! "v")).
Proof.
  intros Htag. exists (<[cellAddress := VCell cell]> worksheet).
  split; [done|].
  rewrite getCellNumericValue_read, get_insert.
  rewrite decide_True; [done|]. by apply type_tag_cell.
Qed.

Lemma write_read_numeric_record_witness :
  numeric_cell (PNumber five) !! "t" = Some (PString "n")
  ∧ ∃ written,
      setCellValue sheet_x "A1" (OfCellObject (numeric_cell (PNumber five)))
        (Some false) = Ok written
      ∧ getCellNumericValue written "A1" = Ok (PNumber five).
Proof.
  split; [reflexivity|].
  apply (write_read_numeric_record sheet_x "A1" (numeric_cell (PNumber five))).
  reflexivity.
Defined.

(** C10. A call of the writer returns and changes at most the entry at the
    given address: every other entry of the worksheet is as before, among
    them the ['!merges'] list when the address is a cell's. *)
Theorem setCellValue_frame (worksheet : WorkSheet) (cellAddress : string)
    (value : CellValue) (formatCell : option bool) :
  ∃ written,
    setCellValue worksheet cellAddress value formatCell = Ok written
    ∧ (∀ other, other ≠ cellAddress → written !! other = worksheet !! other)
    ∧ (cellAddress ≠ "!merges" → written !! "!merges" = worksheet !! "!merges").
Proof.
  destruct (setCellValue_assigns worksheet cellAddress value formatCell)
    as [stored ->].
  eexists. split; [done|].
  split; [intros other Hother|intros Hother]; by rewrite lookup_insert_ne.
Qed.

Lemma setCellValue_frame_witness :
  ∃ written,
    setCellValue sheet_1234 "A1" (OfNumber five_and_a_quarter) None = Ok written
    ∧ written !! "B2" = sheet_1234 !! "B2"
    ∧ written !! "!merges" = sheet_1234 !! "!merges".
Proof.
  destruct (setCellValue_frame sheet_1234 "A1" (OfNumber five_and_a_quarter) None)
    as (written & Hwritten & Hother & Hmerges).
  exists written. split; [exact Hwritten|]. split.
  - apply Hother. vm_compute. discriminate.
  - apply Hmerges. vm_compute. discriminate.
Defined.

(** *** Whole numbers *)

Lemma iter_xO_value (m d : positive) :
  Z.pos (Pos.iter xO m d) = Z.pos m * 2 ^ Z.pos d.
Proof.
  induction d as [|d IH] using Pos.peano_ind.
  - simpl. lia.
  - rewrite Pos.iter_succ, Pos2Z.inj_xO, IH, Pos2Z.inj_succ, Z.pow_succ_r by lia.
    lia.
Qed.

Lemma shl_align_value (m : positive) (e e' : Z) :
  e' ≤ e → Z.pos (fst (shl_align m e e')) = Z.pos m * 2 ^ (e - e').
Proof.
  intros Hle. unfold shl_align.
  destruct (e' - e) as [|d|d] eqn:Hd; simpl.
  - replace (e - e') with 0 by lia. lia.
  - lia.
  - rewrite iter_xO_value. f_equal. f_equal. lia.
Qed.

Lemma remainder_one_zero (m : positive) (e : Z) :
  let ez := Z.min e (-52) in
  Z.rem (Z.pos (fst (shl_align m e ez)))
        (Z.pos (fst (shl_align 4503599627370496 (-52) ez))) = 0
  ↔ Z.pos m mod 2 ^ Z.max 0 (- e) = 0.
Proof.
  intros ez.
  rewrite !shl_align_value by lia.
  assert (4503599627370496 = 2 ^ 52) as -> by reflexivity.
  rewrite <- Z.pow_add_r by lia.
  replace (52 + (-52 - ez)) with (- ez) by lia.
  rewrite Z.rem_mod_nonneg by (try apply Z.pow_pos_nonneg; lia).
  destruct (decide (0 ≤ e)) as [He|He].
  - replace ez with (-52) by lia.
    replace (Z.max 0 (- e)) with 0 by lia.
    rewrite Z.mod_1_r.
    replace (e - -52) with (e + 52) by lia.
    rewrite Z.pow_add_r, Z.mul_assoc by lia.
    replace (- -52) with 52 by lia.
    rewrite Z.mod_mul by lia. done.
  - replace (Z.max 0 (- e)) with (- e) by lia.
    replace (- ez) with (- e + (e - ez)) by lia.
    rewrite Z.pow_add_r by lia.
    assert (0 < 2 ^ (e - ez)) by (apply Z.pow_pos_nonneg; lia).
    assert (0 < 2 ^ (- e)) by (apply Z.pow_pos_nonneg; lia).
    rewrite Z.mul_mod_distr_r by lia.
    nia.
Qed.

Lemma isWholeNumber_whole (x : number) :
  Number_equal (Number_remainder x one) zero = bool_decide (whole x).
Proof.
  destruct x as [s|s| |s m e]; try done.
  unfold Number_remainder, one.
  pose proof (remainder_one_zero m e) as Hrem. simpl in Hrem.
  set (x := Z.pos (fst (shl_align m e (Z.min e (-52))))) in *.
  set (y := Z.pos (fst (shl_align 4503599627370496 (-52) (Z.min e (-52))))) in *.
  assert (0 ≤ Z.rem x y) by (apply Z.rem_nonneg; lia).
  destruct (Z.rem x y) as [|r|r] eqn:Hr.
  - transitivity true; [done|].
    symmetry. apply bool_decide_eq_true_2. simpl. by apply Hrem.
  - unfold finite_exact. destruct (shl_align r _ _) as [m' e'].
    transitivity false; [by destruct s|].
    symmetry. apply bool_decide_eq_false_2. simpl. intros Hw.
    apply Hrem in Hw. done.
  - lia.
Qed.

(** What the writer stores for a number when formatting is enabled. *)
Lemma setCellValue_number (worksheet : WorkSheet) (cellAddress : string)
    (x : number) (formatCell : option bool) :
  default true formatCell = true →
  setCellValue worksheet cellAddress (OfNumber x) formatCell
  = Ok (<[cellAddress :=
            VCell (numeric_record
                     (if bool_decide (whole x) then x
                      else match Number_prototype_toFixed x 35 with
                           | Ok text => parseFloat text
                           | Throw _ => NaN
                           end)
                     (if bool_decide (whole x) then "0" else "0.0000"))]>
          worksheet).
Proof.
  intros Hformat. unfold setCellValue. rewrite Hformat. simpl.
  rewrite isWholeNumber_whole.
  destruct (bool_decide (whole x)); [done|].
  destruct (toFixedFloat_default_returns x) as [-> _]. done.
Qed.

(** C6. With formatting enabled, writing 5 stores a numeric-tagged record
    with value 5 and display format ["0"], writing 5.25 stores a
    numeric-tagged record with value 5.25 and display format ["0.0000"], and
    in general writing a number stores a numeric-tagged record whose format
    is ["0"] for a whole number, which is stored as it is, and ["0.0000"]
    for a fractional one. *)
Theorem setCellValue_number_format (worksheet : WorkSheet)
    (cellAddress : string) (formatCell : option bool) :
  default true formatCell = true →
  setCellValue worksheet cellAddress (OfNumber five) formatCell
  = Ok (<[cellAddress := VCell (numeric_record five "0")]> worksheet)
  ∧ setCellValue worksheet cellAddress (OfNumber five_and_a_quarter) formatCell
    = Ok (<[cellAddress := VCell (numeric_record five_and_a_quarter "0.0000")]>
            worksheet)
  ∧ ∀ x, ∃ fixedValue,
      setCellValue worksheet cellAddress (OfNumber x) formatCell
      = Ok (<[cellAddress :=
                VCell (if decide (whole x) then numeric_record x "0"
                       else numeric_record fixedValue "0.0000")]>
              worksheet).
Proof.
  intros Hformat. split; [|split].
  - rewrite setCellValue_number by done.
    by replace (bool_decide (whole five)) with true by (by vm_compute).
  - rewrite setCellValue_number by done.
    replace (bool_decide (whole five_and_a_quarter)) with false
      by (by vm_compute).
    replace (Number_prototype_toFixed five_and_a_quarter 35)
      with (Ok (A := string) "5.25000000000000000000000000000000000")
      by (by vm_compute).
    by replace (parseFloat "5.25000000000000000000000000000000000")
      with five_and_a_quarter by (by vm_compute).
  - intros x. rewrite setCellValue_number by done.
    destruct (decide (whole x)) as [Hw|Hw].
    + rewrite bool_decide_eq_true_2 by done. by exists x.
    + rewrite bool_decide_eq_false_2 by done. by eexists.
Qed.

Lemma setCellValue_number_format_witness :
  default true None = true
  ∧ setCellValue sheet_x "B2" (OfNumber five) None
    = Ok (<["B2" := VCell (numeric_record five "0")]> sheet_x)
  ∧ setCellValue sheet_x "B2" (OfNumber five_and_a_quarter) None
    = Ok (<["B2" := VCell (numeric_record five_and_a_quarter "0.0000")]> sheet_x).
Proof.
  split; [reflexivity|].
  destruct (setCellValue_number_format sheet_x "B2" None eq_refl)
    as (Hfive & Hquarter & _).
  split; [exact Hfive|exact Hquarter].
Defined.

(** ** The [Number.prototype] extensions *)

(** C4 fails on the code: the default is 35 digits, not the 14 the
    declaration documents. At 0.30000000000000004 the call without an
    argument returns the number unchanged, where rounding to 14 digits
    gives 0.3. *)
Lemma toFixedFloat_default_digits :
  (∀ x, toFixedFloat x None = toFixedFloat x (Some 35))
  ∧ toFixedFloat three_tenths_and_an_ulp None = Ok three_tenths_and_an_ulp
  ∧ toFixedFloat three_tenths_and_an_ulp (Some 14) = Ok three_tenths
  ∧ three_tenths_and_an_ulp ≠ three_tenths.
Proof.
  split; [done|]. split; [by vm_compute|]. split; [by vm_compute|].
  by vm_compute.
Qed.

(** ** The cross-sheet copier *)

(** The copier returns; the target sheet gets, at the address it computes,
    what the source sheet holds at that same address, and no other sheet of
    the store changes. *)
Lemma duplicateToSheet_copies (h : sheets) (sourceSheet targetSheet : nat)
    (sourceCellAddress : string) (targetCellAddress : option string) :
  let cellAddress := default sourceCellAddress targetCellAddress in
  ∃ h',
    duplicateToSheet h sourceSheet targetSheet sourceCellAddress targetCellAddress
    = Ok h'
    ∧ sheet_at h' targetSheet !! cellAddress
      = Some (get (sheet_at h sourceSheet) cellAddress)
    ∧ ∀ l, l ≠ targetSheet → sheet_at h' l = sheet_at h l.
Proof.
  intros cellAddress. eexists. split; [done|]. split.
  - unfold sheet_at at 1. rewrite lookup_insert_eq. simpl.
    by rewrite lookup_insert_eq.
  - intros l Hl. unfold sheet_at. by rewrite lookup_insert_ne.
Qed.

(** C9. When the source sheet holds no record at the address the copier
    reads, so that the read gives [undefined], the copier returns without an
    error and the target sheet has the address as an entry of its own,
    holding [undefined]. *)
Theorem duplicateToSheet_absent_source (h : sheets)
    (sourceSheet targetSheet : nat) (sourceCellAddress : string)
    (targetCellAddress : option string) :
  get (sheet_at h sourceSheet) (default sourceCellAddress targetCellAddress)
  = undefined →
  ∃ h',
    duplicateToSheet h sourceSheet targetSheet sourceCellAddress targetCellAddress
    = Ok h'
    ∧ sheet_at h' targetSheet !! default sourceCellAddress targetCellAddress
      = Some undefined.
Proof.
  intros Habsent.
  destruct (duplicateToSheet_copies h sourceSheet targetSheet sourceCellAddress
              targetCellAddress) as (h' & Hcall & Htarget & _).
  exists h'. split; [done|].
  rewrite Htarget. by rewrite Habsent.
Qed.

Lemma duplicateToSheet_absent_source_witness :
  sheet_at two_sheets 0 !! "C3" = None
  ∧ get (sheet_at two_sheets 0) (default "C3" None) = undefined
  ∧ sheet_at two_sheets 1 !! "C3" = None
  ∧ ∃ h',
      duplicateToSheet two_sheets 0 1 "C3" None = Ok h'
      ∧ sheet_at h' 1 !! "C3" = Some undefined.
Proof.
  split; [reflexivity|]. split; [reflexivity|]. split; [reflexivity|].
  apply (duplicateToSheet_absent_source two_sheets 0 1 "C3" None).
  reflexivity.
Defined.

(** C1 fails on the code: the copier reads the source sheet at the target
    address. Copying A1 of [sheet_x] to B1 of the empty sheet leaves B1
    holding [undefined], not the record of A1. *)
Lemma duplicateToSheet_reads_target_address :
  sheet_at two_sheets 0 !! "A1" = Some (VCell (string_cell (PString "x")))
  ∧ ∃ h',
      duplicateToSheet two_sheets 0 1 "A1" (Some "B1") = Ok h'
      ∧ sheet_at h' 1 !! "B1" = Some undefined
      ∧ sheet_at h' 0 = sheet_at two_sheets 0.
Proof.
  split; [reflexivity|].
  destruct (duplicateToSheet_copies two_sheets 0 1 "A1" (Some "B1"))
    as (h' & Hcall & Htarget & Hframe).
  exists h'. split; [done|]. split.
  - simpl in Htarget. rewrite Htarget. reflexivity.
  - by apply Hframe.
Qed.

(** ** The merge registrar *)

Lemma mergeCells_decoded {utils : XlsxUtils} (worksheet : WorkSheet)
    (startAddress endAddress : string) (startCell endCell : Xlsx.CellAddress) :
  decode_cell startAddress = Ok startCell →
  decode_cell endAddress = Ok endCell →
  worksheet !! "!merges" = None
  ∨ worksheet !! "!merges" = Some (VMerges (registered_merges worksheet)) →
  mergeCells worksheet startAddress endAddress
  = Ok (<["!merges" :=
            VMerges (registered_merges worksheet
                     ++ [{| Xlsx.s := startCell; Xlsx.e := endCell |}])]>
          worksheet).
Proof.
  intros Hstart Hend Hmerges. unfold mergeCells.
  rewrite Hstart, Hend. simpl.
  destruct startCell as [sc sr], endCell as [ec er]. simpl.
  destruct Hmerges as [Hnone|Hsome].
  - assert (get worksheet "!merges" = undefined) as Hget
      by (unfold get; by rewrite Hnone).
    unfold registered_merges. rewrite Hget, Hnone. simpl.
    rewrite get_insert. simpl. by rewrite insert_insert_eq.
  - rewrite (get_lookup _ _ _ Hsome). simpl.
    by rewrite (get_lookup _ _ _ Hsome).
Qed.

(** C8. Merging ["A1"] to ["B2"] on a worksheet with no ['!merges'] list
    creates the list with exactly one rectangle, from row 0, column 0 to
    row 1, column 1. In general the registrar appends to the list the
    rectangle built from the two decoded addresses and keeps every merge
    registered before, and on a worksheet with no list it creates one
    holding that rectangle. *)
Theorem mergeCells_appends :
  (∀ worksheet : WorkSheet,
     worksheet !! "!merges" = None →
     mergeCells (utils := A1_utils) worksheet "A1" "B2"
     = Ok (<["!merges" := VMerges [A1_B2]]> worksheet))
  ∧ (∀ (utils : XlsxUtils) (worksheet : WorkSheet)
       (startAddress endAddress : string)
       (startCell endCell : Xlsx.CellAddress) (merges : list Xlsx.Range),
       decode_cell startAddress = Ok startCell →
       decode_cell endAddress = Ok endCell →
       worksheet !! "!merges" = Some (VMerges merges) →
       mergeCells worksheet startAddress endAddress
       = Ok (<["!merges" :=
                 VMerges (merges ++ [{| Xlsx.s := startCell;
                                        Xlsx.e := endCell |}])]>
               worksheet))
  ∧ (∀ (utils : XlsxUtils) (worksheet : WorkSheet)
       (startAddress endAddress : string)
       (startCell endCell : Xlsx.CellAddress),
       decode_cell startAddress = Ok startCell →
       decode_cell endAddress = Ok endCell →
       worksheet !! "!merges" = None →
       mergeCells worksheet startAddress endAddress
       = Ok (<["!merges" :=
                 VMerges [{| Xlsx.s := startCell; Xlsx.e := endCell |}]]>
               worksheet)).
Proof.
  split; [|split].
  - intros worksheet Hnone.
    rewrite (mergeCells_decoded (utils := A1_utils) worksheet "A1" "B2"
               {| Xlsx.c := 0; Xlsx.r := 0 |} {| Xlsx.c := 1; Xlsx.r := 1 |})
      by (reflexivity || by left).
    unfold registered_merges. by rewrite Hnone.
  - intros utils worksheet startAddress endAddress startCell endCell merges
      Hstart Hend Hsome.
    rewrite (mergeCells_decoded worksheet startAddress endAddress
               startCell endCell Hstart Hend).
    + unfold registered_merges. by rewrite Hsome.
    + right. unfold registered_merges. by rewrite Hsome.
  - intros utils worksheet startAddress endAddress startCell endCell
      Hstart Hend Hnone.
    rewrite (mergeCells_decoded worksheet startAddress endAddress
               startCell endCell Hstart Hend) by (by left).
    unfold registered_merges. by rewrite Hnone.
Qed.

Lemma mergeCells_appends_witness :
  sheet_x !! "!merges" = None
  ∧ mergeCells (utils := A1_utils) sheet_x "A1" "B2"
    = Ok (<["!merges" := VMerges [A1_B2]]> sheet_x)
  ∧ mergeCells (utils := A1_utils)
      (<["!merges" := VMerges [A1_B2]]> sheet_x) "B2" "A1"
    = Ok (<["!merges" :=
              VMerges [A1_B2;
                       {| Xlsx.s := {| Xlsx.c := 1; Xlsx.r := 1 |};
                          Xlsx.e := {| Xlsx.c := 0; Xlsx.r := 0 |} |}]]>
            (<["!merges" := VMerges [A1_B2]]> sheet_x)).
Proof.
  destruct mergeCells_appends as (Hfirst & Hnext & _).
  split; [reflexivity|]. split.
  - apply Hfirst. reflexivity.
  - apply (Hnext A1_utils (<["!merges" := VMerges [A1_B2]]> sheet_x) "B2" "A1"
             {| Xlsx.c := 1; Xlsx.r := 1 |} {| Xlsx.c := 0; Xlsx.r := 0 |}
             [A1_B2]); reflexivity.
Defined.

(** * Further properties *)

(** ** More on the range reader *)

Lemma rectangle_length {A : Type} (range : Xlsx.Range) (entry : Z → Z → A) :
  length (rectangle range entry) = row_count range.
Proof. unfold rectangle, row_count. by rewrite length_fmap, length_seqZ. Qed.

Lemma rectangle_row_length {A : Type} (range : Xlsx.Range) (entry : Z → Z → A) :
  Forall (fun row => length row = column_count range) (rectangle range entry).
Proof.
  unfold rectangle, column_count. apply Forall_fmap, Forall_forall.
  intros row _. simpl. by rewrite length_fmap, length_seqZ.
Qed.

(** A rectangle is determined by its entries at the positions of the range. *)
Lemma rectangle_ext {A : Type} (range : Xlsx.Range) (f g : Z → Z → A) :
  (∀ row col, in_range range row col → f row col = g row col) →
  rectangle range f = rectangle range g.
Proof.
  intros Hfg. unfold rectangle.
  apply Forall_fmap_ext, Forall_seqZ. intros row Hrow.
  apply Forall_fmap_ext, Forall_seqZ. intros col Hcol.
  apply Hfg. unfold in_range. lia.
Qed.

Section RangeReaderMore.
Context {utils : XlsxUtils}.

(** What the reader returns once the range is decoded. *)
Lemma getRangeValues_decoded (worksheet : WorkSheet) (range : string)
    (decodedRange : Xlsx.Range) :
  decode_range range = Ok decodedRange →
  getRangeValues worksheet range
  = Ok (rectangle decodedRange (raw_entry worksheet)).
Proof.
  intros Hdecode. unfold getRangeValues. rewrite Hdecode. simpl.
  erewrite (for_upto_pure (fun row values => push values _)).
  - rewrite foldl_push. reflexivity.
  - intros row values. simpl.
    erewrite (for_upto_pure (fun col rowValues => push rowValues _)).
    + rewrite foldl_push. reflexivity.
    + intros col rowValues. by rewrite get_prop_opt_v.
Qed.

(** X1. The result has one row per row of the decoded range and every row
    has one slot per column of the range, whatever the worksheet holds. *)
Theorem getRangeValues_dimensions (worksheet : WorkSheet) (range : string)
    (decodedRange : Xlsx.Range) :
  decode_range range = Ok decodedRange →
  ∃ values,
    getRangeValues worksheet range = Ok values
    ∧ length values = row_count decodedRange
    ∧ Forall (fun row => length row = column_count decodedRange) values.
Proof.
  intros Hdecode. eexists. split; [by apply getRangeValues_decoded|].
  split; [apply rectangle_length|apply rectangle_row_length].
Qed.

(** X2. A range whose end lies before its start, in rows or in columns, is
    read without an error and yields no value at all; with the end row above
    the start row the result is the empty list. *)
Theorem getRangeValues_inverted (worksheet : WorkSheet) (range : string)
    (decodedRange : Xlsx.Range) :
  decode_range range = Ok decodedRange →
  Xlsx.r (Xlsx.e decodedRange) < Xlsx.r (Xlsx.s decodedRange)
  ∨ Xlsx.c (Xlsx.e decodedRange) < Xlsx.c (Xlsx.s decodedRange) →
  ∃ values,
    getRangeValues worksheet range = Ok values
    ∧ concat values = []
    ∧ (Xlsx.r (Xlsx.e decodedRange) < Xlsx.r (Xlsx.s decodedRange) →
       values = []).
Proof.
  intros Hdecode Hinverted. eexists.
  split; [by apply getRangeValues_decoded|]. split.
  - destruct Hinverted as [Hrows|Hcols]; unfold rectangle.
    + by rewrite (seqZ_nil (Xlsx.r _)) by lia.
    + rewrite (seqZ_nil (Xlsx.c _)) by lia. simpl.
      induction (seqZ _ _) as [|row rows IH]; [done|]. by simpl.
  - intros Hrows. unfold rectangle. by rewrite (seqZ_nil (Xlsx.r _)) by lia.
Qed.

(** X3. The reader throws exactly when decoding the range throws, and then
    with the same error: reading the cells never fails. *)
Theorem getRangeValues_throws_iff (worksheet : WorkSheet) (range : string)
    (err : error) :
  getRangeValues worksheet range = Throw err ↔ decode_range range = Throw err.
Proof.
  destruct (decode_range range) as [decodedRange|err'] eqn:Hdecode.
  - rewrite (getRangeValues_decoded _ _ _ Hdecode). split; discriminate.
  - unfold getRangeValues. rewrite Hdecode. simpl.
    split; intros [= ->]; reflexivity.
Qed.

(** X4. The result depends only on the raw values of the cells of the
    rectangle: two worksheets that agree on them are read alike, whatever
    else they hold. *)
Theorem getRangeValues_read_set (worksheet worksheet' : WorkSheet)
    (range : string) :
  (∀ decodedRange row col,
     decode_range range = Ok decodedRange →
     in_range decodedRange row col →
     raw_entry worksheet row col = raw_entry worksheet' row col) →
  getRangeValues worksheet range = getRangeValues worksheet' range.
Proof.
  intros Hagree.
  destruct (decode_range range) as [decodedRange|err] eqn:Hdecode.
  - rewrite !(getRangeValues_decoded _ _ _ Hdecode). f_equal.
    apply rectangle_ext. intros row col Hin. by apply (Hagree decodedRange).
  - unfold getRangeValues. by rewrite Hdecode.
Qed.

End RangeReaderMore.

Lemma getRangeValues_dimensions_witness :
  @decode_range A1_utils "A1:B2" = Ok A1_B2
  ∧ ∃ values,
      getRangeValues (utils := A1_utils) sheet_1234 "A1:B2" = Ok values
      ∧ length values = 2%nat
      ∧ Forall (fun row => length row = 2%nat) values.
Proof.
  split; [reflexivity|].
  apply (getRangeValues_dimensions (utils := A1_utils) sheet_1234 "A1:B2" A1_B2).
  reflexivity.
Defined.

Lemma getRangeValues_inverted_witness :
  @decode_range A1_utils "B2:A1" = Ok B2_A1
  ∧ Xlsx.r (Xlsx.e B2_A1) < Xlsx.r (Xlsx.s B2_A1)
  ∧ ∃ values,
      getRangeValues (utils := A1_utils) sheet_1234 "B2:A1" = Ok values
      ∧ concat values = []
      ∧ (Xlsx.r (Xlsx.e B2_A1) < Xlsx.r (Xlsx.s B2_A1) → values = []).
Proof.
  split; [reflexivity|]. split; [reflexivity|].
  apply (getRangeValues_inverted (utils := A1_utils) sheet_1234 "B2:A1" B2_A1).
  - reflexivity.
  - left. reflexivity.
Defined.

Lemma getRangeValues_read_set_witness :
  getRangeValues (utils := A1_utils) sheet_1234 "A1:B2"
  = getRangeValues (utils := A1_utils)
      (<["C3" := VCell (string_cell (PString "x"))]> sheet_1234) "A1:B2".
Proof.
  apply (getRangeValues_read_set (utils := A1_utils)).
  intros decodedRange row col Hdecode [Hrow Hcol].
  vm_compute in Hdecode. injection Hdecode as <-.
  simpl in Hrow, Hcol.
  assert (row = 0 ∨ row = 1) as [-> | ->] by lia;
    (assert (col = 0 ∨ col = 1) as [-> | ->] by lia); reflexivity.
Defined.

(** The rectangle of a one-cell range has the one entry of that cell. *)
Lemma rectangle_single {A : Type} (cell : Xlsx.CellAddress) (entry : Z → Z → A) :
  rectangle (single cell) entry = [[entry (Xlsx.r cell) (Xlsx.c cell)]].
Proof.
  unfold rectangle, single. simpl.
  replace (Xlsx.r cell + 1 - Xlsx.r cell) with 1 by lia.
  replace (Xlsx.c cell + 1 - Xlsx.c cell) with 1 by lia.
  rewrite !(seqZ_step _ 1), !seqZ_nil by lia. done.
Qed.

Section RangeReaderComposition.
Context {utils : XlsxUtils}.

(** X5. A cell written with formatting enabled is read back by the range
    reader over the one-cell range of its address: a whole number as that
    number, a string as that string. *)
Theorem setCellValue_then_getRangeValues (worksheet : WorkSheet)
    (range : string) (cell : Xlsx.CellAddress) (formatCell : option bool) :
  decode_range range = Ok (single cell) →
  default true formatCell = true →
  (∀ x, whole x →
     ∃ written,
       setCellValue worksheet (encode_cell cell) (OfNumber x) formatCell
       = Ok written
       ∧ getRangeValues written range = Ok [[PNumber x]])
  ∧ (∀ s,
       ∃ written,
         setCellValue worksheet (encode_cell cell) (OfString s) formatCell
         = Ok written
         ∧ getRangeValues written range = Ok [[PString s]]).
Proof.
  intros Hdecode Hformat. split.
  - intros x Hwhole. eexists. split.
    + rewrite setCellValue_number by done.
      rewrite bool_decide_eq_true_2 by done. reflexivity.
    + rewrite (getRangeValues_decoded _ _ _ Hdecode), rectangle_single.
      unfold raw_entry. destruct cell as [c r]. simpl.
      by rewrite get_insert.
  - intros s. eexists. split.
    + unfold setCellValue. rewrite Hformat. reflexivity.
    + rewrite (getRangeValues_decoded _ _ _ Hdecode), rectangle_single.
      unfold raw_entry. destruct cell as [c r]. simpl.
      by rewrite get_insert.
Qed.

(** X6. Over a range whose every cell holds a record tagged numeric, the
    range reader returns, position by position, what the numeric reader
    returns for the cell. *)
Theorem getRangeValues_numeric_sheet (worksheet : WorkSheet) (range : string)
    (decodedRange : Xlsx.Range) :
  decode_range range = Ok decodedRange →
  (∀ row col,
     in_range decodedRange row col →
     type_tag (get worksheet (encode_cell {| Xlsx.r := row; Xlsx.c := col |}))
     = PString "n") →
  getRangeValues worksheet range
  = Ok (rectangle decodedRange (numeric_reading worksheet)).
Proof.
  intros Hdecode Hnumeric.
  rewrite (getRangeValues_decoded _ _ _ Hdecode). f_equal.
  apply rectangle_ext. intros row col Hin.
  unfold numeric_reading. rewrite getCellNumericValue_read.
  by rewrite decide_True by by apply Hnumeric.
Qed.

End RangeReaderComposition.

Lemma setCellValue_then_getRangeValues_witness :
  @decode_range A1_utils "C3" = Ok (single C3)
  ∧ whole forty_two
  ∧ (∃ written,
       setCellValue sheet_1234 "C3" (OfNumber forty_two) None = Ok written
       ∧ getRangeValues (utils := A1_utils) written "C3"
         = Ok [[PNumber forty_two]])
  ∧ (∃ written,
       setCellValue sheet_1234 "C3" (OfString "x") None = Ok written
       ∧ getRangeValues (utils := A1_utils) written "C3" = Ok [[PString "x"]]).
Proof.
  split; [reflexivity|]. split; [reflexivity|].
  destruct (setCellValue_then_getRangeValues (utils := A1_utils)
              sheet_1234 "C3" C3 None eq_refl eq_refl) as [Hnumber Hstring].
  split; [apply (Hnumber forty_two); reflexivity|apply Hstring].
Defined.

Lemma getRangeValues_numeric_sheet_witness :
  @decode_range A1_utils "A1:B2" = Ok A1_B2
  ∧ getRangeValues (utils := A1_utils) sheet_1234 "A1:B2"
    = Ok (rectangle A1_B2 (numeric_reading (utils := A1_utils) sheet_1234)).
Proof.
  split; [reflexivity|].
  apply (getRangeValues_numeric_sheet (utils := A1_utils) sheet_1234 "A1:B2" A1_B2).
  - reflexivity.
  - intros row col [Hrow Hcol]. simpl in Hrow, Hcol.
    assert (row = 0 ∨ row = 1) as [-> | ->] by lia;
      (assert (col = 0 ∨ col = 1) as [-> | ->] by lia); reflexivity.
Defined.

(** ** More on the typed readers and the writer *)

Lemma get_insert_ne (worksheet : WorkSheet) (key other : string) (x : any) :
  key ≠ other → get (<[key := x]> worksheet) other = get worksheet other.
Proof. intros Hne. unfold get. by rewrite lookup_insert_ne. Qed.

(** What the writer stores depends on the value and the flag only, not on
    the worksheet or the address. *)
Lemma setCellValue_stores (value : CellValue) (formatCell : option bool) :
  ∃ stored, ∀ (worksheet : WorkSheet) (cellAddress : string),
    setCellValue worksheet cellAddress value formatCell
    = Ok (<[cellAddress := stored]> worksheet).
Proof.
  unfold setCellValue.
  destruct (negb (default true formatCell) || _); [eauto|].
  destruct value as [x|s|cell|]; eauto.
  destruct (Number_equal (Number_remainder x one) zero); simpl; [eauto|].
  destruct (toFixedFloat_default_returns x) as [-> _]. simpl. eauto.
Qed.

(** X7. A number written with formatting enabled is read back by the
    numeric reader: a whole number as itself, any other number as its
    [toFixedFloat()]; the string reader sees nothing there. *)
Theorem setCellValue_number_read_back (worksheet : WorkSheet)
    (cellAddress : string) (x : number) (formatCell : option bool) :
  default true formatCell = true →
  ∃ written fixedValue,
    setCellValue worksheet cellAddress (OfNumber x) formatCell = Ok written
    ∧ toFixedFloat x None = Ok fixedValue
    ∧ getCellNumericValue written cellAddress
      = Ok (PNumber (if decide (whole x) then x else fixedValue))
    ∧ getCellStringValue written cellAddress = Ok (PString "").
Proof.
  intros Hformat.
  destruct (toFixedFloat_default_returns x) as [Hfixed _].
  eexists. eexists. split; [by apply setCellValue_number|].
  split; [exact Hfixed|].
  rewrite getCellNumericValue_read, getCellStringValue_read, get_insert.
  split; [|done].
  rewrite decide_True by done. simpl.
  destruct (decide (whole x)) as [Hw|Hw].
  - by rewrite bool_decide_eq_true_2.
  - by rewrite bool_decide_eq_false_2.
Qed.

Lemma setCellValue_number_read_back_witness :
  default true (Some true) = true
  ∧ ∃ written,
      setCellValue sheet_x "B2" (OfNumber forty_two) (Some true) = Ok written
      ∧ getCellNumericValue written "B2" = Ok (PNumber forty_two)
      ∧ getCellStringValue written "B2" = Ok (PString "").
Proof.
  split; [reflexivity|].
  destruct (setCellValue_number_read_back sheet_x "B2" forty_two (Some true)
              eq_refl) as (written & fixedValue & Hwrite & _ & Hnum & Hstr).
  exists written. split; [exact Hwrite|]. split; [exact Hnum|exact Hstr].
Defined.

(** X8. A string written with formatting enabled is read back by the string
    reader, and the numeric reader returns 0 for it. *)
Theorem setCellValue_string_read_back (worksheet : WorkSheet)
    (cellAddress : string) (s : string) (formatCell : option bool) :
  default true formatCell = true →
  ∃ written,
    setCellValue worksheet cellAddress (OfString s) formatCell = Ok written
    ∧ getCellStringValue written cellAddress = Ok (PString s)
    ∧ getCellNumericValue written cellAddress = Ok (PNumber zero).
Proof.
  intros Hformat. eexists. split.
  - unfold setCellValue. rewrite Hformat. reflexivity.
  - by rewrite getCellNumericValue_read, getCellStringValue_read, get_insert.
Qed.

Lemma setCellValue_string_read_back_witness :
  default true None = true
  ∧ ∃ written,
      setCellValue sheet_1234 "A1" (OfString "total") None = Ok written
      ∧ getCellStringValue written "A1" = Ok (PString "total")
      ∧ getCellNumericValue written "A1" = Ok (PNumber zero).
Proof.
  split; [reflexivity|].
  apply (setCellValue_string_read_back sheet_1234 "A1" "total" None).
  reflexivity.
Defined.

(** X9. A number, a string or [undefined] written with the formatting flag
    [false] is stored bare: the entry at the address is that primitive
    itself, with no record around it. No reader sees it: the numeric reader
    returns 0, the string reader the empty string, and its raw value is
    [undefined]. *)
Theorem setCellValue_unformatted_primitive (worksheet : WorkSheet)
    (cellAddress : string) (value : CellValue) :
  (∀ cell, value ≠ OfCellObject cell) →
  ∃ p,
    to_any value = VPrim p
    ∧ setCellValue worksheet cellAddress value (Some false)
      = Ok (<[cellAddress := VPrim p]> worksheet)
    ∧ getCellNumericValue (<[cellAddress := VPrim p]> worksheet) cellAddress
      = Ok (PNumber zero)
    ∧ getCellStringValue (<[cellAddress := VPrim p]> worksheet) cellAddress
      = Ok (PString "")
    ∧ raw_value (get (<[cellAddress := VPrim p]> worksheet) cellAddress)
      = PUndefined.
Proof.
  intros Hprimitive.
  assert (∃ p, to_any value = VPrim p) as [p Hp].
  { destruct value as [x|s|cell|]; eauto. by destruct (Hprimitive cell). }
  exists p. split; [exact Hp|]. split.
  - unfold setCellValue. simpl. by rewrite Hp.
  - by rewrite getCellNumericValue_read, getCellStringValue_read, get_insert.
Qed.

Lemma setCellValue_unformatted_primitive_witness :
  setCellValue sheet_x "B2" (OfNumber forty_two) (Some false)
  = Ok (<["B2" := VPrim (PNumber forty_two)]> sheet_x)
  ∧ getCellNumericValue (<["B2" := VPrim (PNumber forty_two)]> sheet_x) "B2"
    = Ok (PNumber zero)
  ∧ getCellStringValue (<["B2" := VPrim (PNumber forty_two)]> sheet_x) "B2"
    = Ok (PString "")
  ∧ raw_value (get (<["B2" := VPrim (PNumber forty_two)]> sheet_x) "B2")
    = PUndefined.
Proof.
  destruct (setCellValue_unformatted_primitive sheet_x "B2" (OfNumber forty_two))
    as (p & Hp & Hwrite & Hnumeric & Hstring & Hraw);
    [intros cell; discriminate|].
  injection Hp as <-.
  split; [exact Hwrite|]. split; [exact Hnumeric|]. split; [exact Hstring|exact Hraw].
Defined.

(** X10. A write leaves what both typed readers return at every other
    address as it was. *)
Theorem setCellValue_readers_frame (worksheet : WorkSheet)
    (cellAddress other : string) (value : CellValue) (formatCell : option bool) :
  cellAddress ≠ other →
  ∃ written,
    setCellValue worksheet cellAddress value formatCell = Ok written
    ∧ getCellNumericValue written other = getCellNumericValue worksheet other
    ∧ getCellStringValue written other = getCellStringValue worksheet other.
Proof.
  intros Hother.
  destruct (setCellValue_stores value formatCell) as [stored Hstores].
  eexists. split; [apply Hstores|].
  by rewrite !getCellNumericValue_read, !getCellStringValue_read,
    !get_insert_ne.
Qed.

Lemma setCellValue_readers_frame_witness :
  ∃ written,
    setCellValue sheet_1234 "A1" (OfString "x") None = Ok written
    ∧ getCellNumericValue written "B2" = getCellNumericValue sheet_1234 "B2"
    ∧ getCellStringValue written "B2" = getCellStringValue sheet_1234 "B2".
Proof.
  apply (setCellValue_readers_frame sheet_1234 "A1" "B2" (OfString "x") None).
  discriminate.
Defined.

(** X11. No entry is seen by both typed readers: at every address of every
    worksheet the numeric reader returns 0 or the string reader returns the
    empty string. *)
Theorem typed_readers_exclusive (worksheet : WorkSheet) (cellAddress : string) :
  getCellNumericValue worksheet cellAddress = Ok (PNumber zero)
  ∨ getCellStringValue worksheet cellAddress = Ok (PString "").
Proof.
  rewrite getCellNumericValue_read, getCellStringValue_read.
  destruct (decide (type_tag (get worksheet cellAddress) = PString "n"))
    as [Hn|Hn]; [|by left].
  right. rewrite decide_False; [done|]. rewrite Hn. discriminate.
Qed.

(** X12. The last write to an address wins: a write after another one to
    the same address leaves the worksheet as the second write alone does. *)
Theorem setCellValue_overwrites (worksheet : WorkSheet) (cellAddress : string)
    (value1 value2 : CellValue) (formatCell1 formatCell2 : option bool) :
  ∃ first second,
    setCellValue worksheet cellAddress value1 formatCell1 = Ok first
    ∧ setCellValue first cellAddress value2 formatCell2 = Ok second
    ∧ setCellValue worksheet cellAddress value2 formatCell2 = Ok second.
Proof.
  destruct (setCellValue_stores value1 formatCell1) as [stored1 Hfirst].
  destruct (setCellValue_stores value2 formatCell2) as [stored2 Hsecond].
  eexists. eexists. split; [apply Hfirst|].
  rewrite !Hsecond. by rewrite insert_insert_eq.
Qed.

(** X13. Writes to two different addresses commute. *)
Theorem setCellValue_commutes (worksheet : WorkSheet)
    (cellAddress1 cellAddress2 : string) (value1 value2 : CellValue)
    (formatCell1 formatCell2 : option bool) :
  cellAddress1 ≠ cellAddress2 →
  ∃ first second both,
    setCellValue worksheet cellAddress1 value1 formatCell1 = Ok first
    ∧ setCellValue worksheet cellAddress2 value2 formatCell2 = Ok second
    ∧ setCellValue first cellAddress2 value2 formatCell2 = Ok both
    ∧ setCellValue second cellAddress1 value1 formatCell1 = Ok both.
Proof.
  intros Hne.
  destruct (setCellValue_stores value1 formatCell1) as [stored1 Hfirst].
  destruct (setCellValue_stores value2 formatCell2) as [stored2 Hsecond].
  eexists. eexists. eexists.
  split; [apply Hfirst|]. split; [apply Hsecond|].
  split; [apply Hsecond|].
  rewrite Hfirst. f_equal. by apply insert_insert_ne.
Qed.

Lemma setCellValue_commutes_witness :
  ∃ first second both,
    setCellValue sheet_x "B1" (OfNumber forty_two) None = Ok first
    ∧ setCellValue sheet_x "B2" (OfString "x") None = Ok second
    ∧ setCellValue first "B2" (OfString "x") None = Ok both
    ∧ setCellValue second "B1" (OfNumber forty_two) None = Ok both.
Proof.
  apply (setCellValue_commutes sheet_x "B1" "B2" (OfNumber forty_two)
           (OfString "x") None None).
  discriminate.
Defined.

(** X14. Writing [undefined] with formatting enabled clears the cell but
    keeps its slot: whatever was stored, the address afterwards holds a
    record, one without a value, and both typed readers return their
    defaults. *)
Theorem setCellValue_clears (worksheet : WorkSheet) (cellAddress : string)
    (formatCell : option bool) :
  default true formatCell = true →
  ∃ written cell,
    setCellValue worksheet cellAddress OfUndefined formatCell = Ok written
    ∧ written !! cellAddress = Some (VCell cell)
    ∧ raw_value (VCell cell) = PUndefined
    ∧ getCellNumericValue written cellAddress = Ok (PNumber zero)
    ∧ getCellStringValue written cellAddress = Ok (PString "").
Proof.
  intros Hformat. eexists. eexists. split.
  - unfold setCellValue. rewrite Hformat. reflexivity.
  - rewrite lookup_insert_eq.
    by rewrite getCellNumericValue_read, getCellStringValue_read, get_insert.
Qed.

Lemma setCellValue_clears_witness :
  default true None = true
  ∧ getCellNumericValue sheet_1234 "A1" = Ok (PNumber (number_of_Z 1))
  ∧ ∃ written cell,
      setCellValue sheet_1234 "A1" OfUndefined None = Ok written
      ∧ written !! "A1" = Some (VCell cell)
      ∧ raw_value (VCell cell) = PUndefined
      ∧ getCellNumericValue written "A1" = Ok (PNumber zero)
      ∧ getCellStringValue written "A1" = Ok (PString "").
Proof.
  split; [reflexivity|]. split; [reflexivity|].
  apply (setCellValue_clears sheet_1234 "A1" None). reflexivity.
Defined.

(** X15. NaN and the infinities are neither whole nor fractional: written
    with formatting enabled they are stored unchanged, tagged numeric, with
    the display format of fractional numbers. *)
Theorem setCellValue_non_finite (worksheet : WorkSheet) (cellAddress : string)
    (x : number) (formatCell : option bool) :
  default true formatCell = true →
  non_finite x →
  setCellValue worksheet cellAddress (OfNumber x) formatCell
  = Ok (<[cellAddress := VCell (numeric_record x "0.0000")]> worksheet).
Proof.
  intros Hformat Hx. rewrite setCellValue_number by done.
  destruct x as [s|s| |s m e]; try done.
  by destruct s.
Qed.

Lemma setCellValue_non_finite_witness :
  default true None = true
  ∧ non_finite NaN
  ∧ setCellValue sheet_x "B2" (OfNumber NaN) None
    = Ok (<["B2" := VCell (numeric_record NaN "0.0000")]> sheet_x).
Proof.
  split; [reflexivity|]. split; [exact I|].
  apply (setCellValue_non_finite sheet_x "B2" NaN None); [reflexivity|exact I].
Defined.

(** X16. A cell record is stored as it is under every value of the
    formatting flag, and afterwards each typed reader returns the record's
    value exactly when the record carries the reader's tag. *)
Theorem setCellValue_record (worksheet : WorkSheet) (cellAddress : string)
    (cell : CellObject) (formatCell : option bool) :
  ∃ written,
    setCellValue worksheet cellAddress (OfCellObject cell) formatCell
    = Ok written
    ∧ written !! cellAddress = Some (VCell cell)
    ∧ getCellNumericValue written cellAddress
      = Ok (if decide (cell !! "t" = Some (PString "n"))
            then default PUndefined (cell !! "v") else PNumber zero)
    ∧ getCellStringValue written cellAddress
      = Ok (if decide (cell !! "t" = Some (PString "s"))
            then default PUndefined (cell !! "v") else PString "").
Proof.
  exists (<[cellAddress := VCell cell]> worksheet). split.
  - unfold setCellValue. simpl. by rewrite orb_true_r.
  - rewrite lookup_insert_eq.
    rewrite getCellNumericValue_read, getCellStringValue_read, get_insert.
    split; [done|]. split; f_equal.
    + destruct (decide (cell !! "t" = Some (PString "n"))) as [Ht|Ht].
      * rewrite decide_True; [done|]. by apply type_tag_cell.
      * rewrite decide_False; [done|]. by rewrite type_tag_cell.
    + destruct (decide (cell !! "t" = Some (PString "s"))) as [Ht|Ht].
      * rewrite decide_True; [done|]. by apply type_tag_cell.
      * rewrite decide_False; [done|]. by rewrite type_tag_cell.
Qed.

(** ** More on [toFixedFloat] *)

Lemma toFixed_legal (x : number) (digits : Z) :
  0 ≤ digits ≤ 100 → ∃ text, Number_prototype_toFixed x digits = Ok text.
Proof.
  intros Hdigits. unfold Number_prototype_toFixed. simpl.
  replace ((digits <? 0) || (100 <? digits)) with false
    by (symmetry; apply orb_false_iff; rewrite !Z.ltb_ge; lia).
  destruct x as [s|s| |s m e]; eauto. destruct (at_least_1e21 m e); eauto.
Qed.

Lemma toFixed_illegal (x : number) (digits : Z) :
  digits < 0 ∨ 100 < digits →
  Number_prototype_toFixed x digits = Throw RangeError.
Proof.
  intros Hdigits. unfold Number_prototype_toFixed. simpl.
  replace ((digits <? 0) || (100 <? digits)) with true; [done|].
  symmetry. apply orb_true_iff. rewrite !Z.ltb_lt. lia.
Qed.

(** X17. [toFixedFloat] throws, a RangeError, exactly when the digit count
    is below 0 or above 100; for every other count it returns a number,
    whatever number it is applied to. *)
Theorem toFixedFloat_throws_iff (x : number) (digits : Z) :
  (toFixedFloat x (Some digits) = Throw RangeError ↔ digits < 0 ∨ 100 < digits)
  ∧ (∀ err, toFixedFloat x (Some digits) = Throw err → err = RangeError)
  ∧ ((∃ y, toFixedFloat x (Some digits) = Ok y) ↔ 0 ≤ digits ≤ 100).
Proof.
  unfold toFixedFloat. simpl.
  destruct (decide (0 ≤ digits ≤ 100)) as [Hlegal|Hillegal].
  - destruct (toFixed_legal x digits Hlegal) as [text ->]. simpl.
    split; [|split].
    + split; [discriminate|lia].
    + discriminate.
    + split; [done|eauto].
  - rewrite toFixed_illegal by lia. simpl.
    split; [|split].
    + split; [lia|done].
    + by intros err [= <-].
    + split; [by intros [y Hy]|done].
Qed.

(** X18. NaN and the infinities are fixed points of [toFixedFloat], for
    every legal digit count. *)
Theorem toFixedFloat_non_finite (x : number) (digits : Z) :
  0 ≤ digits ≤ 100 →
  non_finite x →
  toFixedFloat x (Some digits) = Ok x.
Proof.
  intros Hdigits Hx. unfold toFixedFloat, Number_prototype_toFixed. simpl.
  replace ((digits <? 0) || (100 <? digits)) with false
    by (symmetry; apply orb_false_iff; rewrite !Z.ltb_ge; lia).
  destruct x as [s|s| |s m e]; try done.
  by destruct s.
Qed.

Lemma toFixedFloat_non_finite_witness :
  0 ≤ 14 ≤ 100
  ∧ non_finite (S754_infinity true)
  ∧ toFixedFloat (S754_infinity true) (Some 14) = Ok (S754_infinity true).
Proof.
  split; [lia|]. split; [exact I|].
  apply (toFixedFloat_non_finite (S754_infinity true) 14); [lia|exact I].
Defined.

(** The text of zero with [f] digits parses to +0, for every legal [f]. *)
Lemma parseFloat_zero_digits (digits : Z) :
  0 ≤ digits ≤ 100 → parseFloat (toFixed_digits 0 digits) = zero.
Proof.
  intros Hdigits.
  assert (forallb (fun f => bool_decide (parseFloat (toFixed_digits 0 f) = zero))
            (seqZ 0 101) = true) as Hall by (by vm_compute).
  rewrite forallb_forall in Hall.
  assert (In digits (seqZ 0 101)) as Hin
    by (apply list_elem_of_In, elem_of_seqZ; lia).
  apply Hall in Hin. by apply bool_decide_eq_true in Hin.
Qed.

(** X19. [toFixedFloat] of a zero is +0 for every legal digit count: the
    sign of -0 is lost. *)
Theorem toFixedFloat_zero (s : bool) (digits : Z) :
  0 ≤ digits ≤ 100 →
  toFixedFloat (S754_zero s) (Some digits) = Ok zero.
Proof.
  intros Hdigits. unfold toFixedFloat, Number_prototype_toFixed. simpl.
  replace ((digits <? 0) || (100 <? digits)) with false
    by (symmetry; apply orb_false_iff; rewrite !Z.ltb_ge; lia).
  simpl. by rewrite parseFloat_zero_digits.
Qed.

Lemma toFixedFloat_zero_witness :
  0 ≤ 35 ≤ 100 ∧ toFixedFloat (S754_zero true) (Some 35) = Ok (S754_zero false).
Proof.
  split; [lia|]. apply (toFixedFloat_zero true 35). lia.
Defined.

(** ** More on the cross-sheet copier *)

Lemma sheet_at_insert (h : sheets) (l : nat) (worksheet : WorkSheet) :
  sheet_at (<[l := worksheet]> h) l = worksheet.
Proof. unfold sheet_at. by rewrite lookup_insert_eq. Qed.

Lemma sheet_at_insert_ne (h : sheets) (l l' : nat) (worksheet : WorkSheet) :
  l ≠ l' → sheet_at (<[l := worksheet]> h) l' = sheet_at h l'.
Proof. intros Hne. unfold sheet_at. by rewrite lookup_insert_ne. Qed.

(** X20. Called without a target address the copier is faithful: the
    target sheet then reads at the address, by either typed reader, what the
    source sheet reads there, and a source sheet that is another object than
    the target is left as it was. *)
Theorem duplicateToSheet_same_address (h : sheets)
    (sourceSheet targetSheet : nat) (cellAddress : string) :
  ∃ h',
    duplicateToSheet h sourceSheet targetSheet cellAddress None = Ok h'
    ∧ getCellNumericValue (sheet_at h' targetSheet) cellAddress
      = getCellNumericValue (sheet_at h sourceSheet) cellAddress
    ∧ getCellStringValue (sheet_at h' targetSheet) cellAddress
      = getCellStringValue (sheet_at h sourceSheet) cellAddress
    ∧ (sourceSheet ≠ targetSheet →
       sheet_at h' sourceSheet = sheet_at h sourceSheet).
Proof.
  destruct (duplicateToSheet_copies h sourceSheet targetSheet cellAddress None)
    as (h' & Hcall & Htarget & Hframe).
  exists h'. split; [done|]. simpl in Htarget.
  rewrite !getCellNumericValue_read, !getCellStringValue_read.
  rewrite (get_lookup _ _ _ Htarget).
  split; [done|]. split; [done|]. apply Hframe.
Qed.

Lemma duplicateToSheet_same_address_witness :
  getCellStringValue (sheet_at two_sheets 0) "A1" = Ok (PString "x")
  ∧ ∃ h',
      duplicateToSheet two_sheets 0 1 "A1" None = Ok h'
      ∧ getCellStringValue (sheet_at h' 1) "A1" = Ok (PString "x")
      ∧ sheet_at h' 0 = sheet_at two_sheets 0.
Proof.
  split; [reflexivity|].
  destruct (duplicateToSheet_same_address two_sheets 0 1 "A1")
    as (h' & Hcall & _ & Hstring & Hsource).
  exists h'. split; [exact Hcall|]. split; [exact Hstring|].
  apply Hsource. discriminate.
Defined.

(** X21. The copier changes one entry of one sheet: every other address of
    the target sheet keeps its entry, and every other sheet of the store is
    as before. *)
Theorem duplicateToSheet_frame (h : sheets) (sourceSheet targetSheet : nat)
    (sourceCellAddress : string) (targetCellAddress : option string) :
  ∃ h',
    duplicateToSheet h sourceSheet targetSheet sourceCellAddress targetCellAddress
    = Ok h'
    ∧ (∀ other,
         other ≠ default sourceCellAddress targetCellAddress →
         sheet_at h' targetSheet !! other = sheet_at h targetSheet !! other)
    ∧ (∀ l, l ≠ targetSheet → sheet_at h' l = sheet_at h l).
Proof.
  eexists. split; [reflexivity|]. split.
  - intros other Hother. by rewrite sheet_at_insert, lookup_insert_ne.
  - intros l Hl. by rewrite sheet_at_insert_ne.
Qed.

Lemma duplicateToSheet_frame_witness :
  ∃ h',
    duplicateToSheet two_sheets 1 0 "B2" (Some "C3") = Ok h'
    ∧ sheet_at h' 0 !! "A1" = sheet_at two_sheets 0 !! "A1"
    ∧ sheet_at h' 1 = sheet_at two_sheets 1.
Proof.
  destruct (duplicateToSheet_frame two_sheets 1 0 "B2" (Some "C3"))
    as (h' & Hcall & Haddress & Hsheet).
  exists h'. split; [exact Hcall|]. split.
  - apply Haddress. discriminate.
  - apply Hsheet. discriminate.
Defined.

(** X22. Copying within one sheet, source and target being the same object,
    changes nothing a read can tell: every property of the sheet reads as
    before, with or without a target address. *)
Theorem duplicateToSheet_self (h : sheets) (sheet : nat)
    (sourceCellAddress : string) (targetCellAddress : option string) :
  ∃ h',
    duplicateToSheet h sheet sheet sourceCellAddress targetCellAddress = Ok h'
    ∧ ∀ key, get (sheet_at h' sheet) key = get (sheet_at h sheet) key.
Proof.
  eexists. split; [reflexivity|].
  intros key. rewrite sheet_at_insert.
  destruct (decide (default sourceCellAddress targetCellAddress = key))
    as [<-|Hne].
  - by rewrite get_insert.
  - by rewrite get_insert_ne.
Qed.

(** X23. The copier is idempotent: a second call with the same arguments
    changes nothing any more. *)
Theorem duplicateToSheet_idempotent (h : sheets) (sourceSheet targetSheet : nat)
    (sourceCellAddress : string) (targetCellAddress : option string) :
  ∃ h',
    duplicateToSheet h sourceSheet targetSheet sourceCellAddress targetCellAddress
    = Ok h'
    ∧ duplicateToSheet h' sourceSheet targetSheet sourceCellAddress
        targetCellAddress = Ok h'.
Proof.
  eexists. split; [reflexivity|].
  unfold duplicateToSheet. f_equal.
  set (cellAddress := default sourceCellAddress targetCellAddress).
  rewrite sheet_at_insert, !insert_insert_eq. do 2 f_equal.
  destruct (decide (targetSheet = sourceSheet)) as [->|Hne].
  - by rewrite sheet_at_insert, get_insert.
  - by rewrite sheet_at_insert_ne.
Qed.

(** ** More on the merge registrar *)

Section MergeRegistrarMore.
Context {utils : XlsxUtils}.

(** The registrar, case by case: the two decodings in turn, then the
    ['!merges'] property, which is replaced by a fresh list when it holds
    something falsy, appended to when it holds a list, and otherwise makes
    the call throw. *)
Lemma mergeCells_cases (worksheet : WorkSheet) (startAddress endAddress : string) :
  mergeCells worksheet startAddress endAddress
  = match decode_cell startAddress, decode_cell endAddress with
    | Throw err, _ => Throw err
    | Ok _, Throw err => Throw err
    | Ok startCell, Ok endCell =>
        let range := {| Xlsx.s := startCell; Xlsx.e := endCell |} in
        if truthy (get worksheet "!merges") then
          match get worksheet "!merges" with
          | VMerges merges =>
              Ok (<["!merges" := VMerges (merges ++ [range])]> worksheet)
          | _ => Throw TypeError
          end
        else Ok (<["!merges" := VMerges [range]]> worksheet)
    end.
Proof.
  unfold mergeCells.
  destruct (decode_cell startAddress) as [[sc sr]|err]; [|done].
  destruct (decode_cell endAddress) as [[ec er]|err]; [|done].
  simpl. destruct (truthy (get worksheet "!merges")) eqn:Htruthy; simpl.
  - by destruct (get worksheet "!merges") as [p|cell|merges].
  - rewrite get_insert. simpl. by rewrite insert_insert_eq.
Qed.

Lemma registered_merges_insert (worksheet : WorkSheet)
    (merges : list Xlsx.Range) :
  registered_merges (<["!merges" := VMerges merges]> worksheet) = merges.
Proof. unfold registered_merges. by rewrite lookup_insert_eq. Qed.

(** X24. The registrar touches the ['!merges'] property only: when it
    returns, every other entry of the worksheet, so every cell, is as
    before. *)
Theorem mergeCells_frame (worksheet merged : WorkSheet)
    (startAddress endAddress : string) :
  mergeCells worksheet startAddress endAddress = Ok merged →
  ∀ key, key ≠ "!merges" → merged !! key = worksheet !! key.
Proof.
  rewrite mergeCells_cases. intros Hcall key Hkey.
  destruct (decode_cell startAddress) as [startCell|err]; [|done].
  destruct (decode_cell endAddress) as [endCell|err]; [|done].
  simpl in Hcall. destruct (truthy (get worksheet "!merges")).
  - destruct (get worksheet "!merges") as [p|cell|merges]; try done.
    injection Hcall as <-. by rewrite lookup_insert_ne.
  - injection Hcall as <-. by rewrite lookup_insert_ne.
Qed.

(** X25. The registrar throws in three cases and no other: the start
    address fails to decode, or the end address does, each time with the
    decoder's error, or both decode and the ['!merges'] property holds
    something truthy that is not a list, a TypeError. *)
Theorem mergeCells_throws_iff (worksheet : WorkSheet)
    (startAddress endAddress : string) (err : error) :
  mergeCells worksheet startAddress endAddress = Throw err
  ↔ decode_cell startAddress = Throw err
    ∨ (∃ startCell,
         decode_cell startAddress = Ok startCell
         ∧ decode_cell endAddress = Throw err)
    ∨ (∃ startCell endCell,
         decode_cell startAddress = Ok startCell
         ∧ decode_cell endAddress = Ok endCell
         ∧ err = TypeError
         ∧ truthy (get worksheet "!merges") = true
         ∧ ∀ merges, get worksheet "!merges" ≠ VMerges merges).
Proof.
  rewrite mergeCells_cases.
  destruct (decode_cell startAddress) as [startCell|err1];
    [destruct (decode_cell endAddress) as [endCell|err2]|]; simpl.
  - destruct (truthy (get worksheet "!merges")) eqn:Htruthy;
      [destruct (get worksheet "!merges") as [p|cell|merges] eqn:Hget|].
    + split.
      * intros [= <-]. right. right. exists startCell, endCell.
        repeat split; discriminate || reflexivity.
      * intros [H|[(sc & _ & H)|(sc & ec & _ & _ & -> & _)]];
          discriminate || reflexivity.
    + split.
      * intros [= <-]. right. right. exists startCell, endCell.
        repeat split; discriminate || reflexivity.
      * intros [H|[(sc & _ & H)|(sc & ec & _ & _ & -> & _)]];
          discriminate || reflexivity.
    + split; [discriminate|].
      intros [H|[(sc & _ & H)|(sc & ec & _ & _ & _ & _ & Hno)]];
        try discriminate. by destruct (Hno merges).
    + split; [discriminate|].
      intros [H|[(sc & _ & H)|(sc & ec & _ & _ & _ & H & _)]]; discriminate.
  - split.
    + intros [= <-]. right. left. by exists startCell.
    + intros [H|[(sc & _ & H)|(sc & ec & _ & H & _)]];
        discriminate || congruence.
  - split.
    + intros [= <-]. by left.
    + intros [H|[(sc & H & _)|(sc & ec & H & _)]];
        discriminate || congruence.
Qed.

(** X26. A ['!merges'] property that is present but falsy, such as
    [undefined], [null], 0 or the empty string, is replaced like a missing
    one: the registrar returns and the list holds the new rectangle alone. *)
Theorem mergeCells_falsy (worksheet : WorkSheet)
    (startAddress endAddress : string) (startCell endCell : Xlsx.CellAddress) :
  decode_cell startAddress = Ok startCell →
  decode_cell endAddress = Ok endCell →
  truthy (get worksheet "!merges") = false →
  mergeCells worksheet startAddress endAddress
  = Ok (<["!merges" :=
            VMerges [{| Xlsx.s := startCell; Xlsx.e := endCell |}]]> worksheet).
Proof.
  intros Hstart Hend Hfalsy.
  by rewrite mergeCells_cases, Hstart, Hend, Hfalsy.
Qed.

(** X27. Merges accumulate in call order and are not deduplicated: after a
    call that returned, a further call whose addresses decode returns too,
    and the list is the one from before the two calls followed by the two
    rectangles, also when they are the same rectangle. *)
Theorem mergeCells_twice (worksheet merged : WorkSheet)
    (startAddress endAddress startAddress' endAddress' : string)
    (startCell' endCell' : Xlsx.CellAddress) :
  mergeCells worksheet startAddress endAddress = Ok merged →
  decode_cell startAddress' = Ok startCell' →
  decode_cell endAddress' = Ok endCell' →
  ∃ range merged',
    mergeCells merged startAddress' endAddress' = Ok merged'
    ∧ registered_merges merged = registered_merges worksheet ++ [range]
    ∧ registered_merges merged'
      = registered_merges worksheet
        ++ [range; {| Xlsx.s := startCell'; Xlsx.e := endCell' |}].
Proof.
  rewrite !mergeCells_cases. intros Hcall -> ->.
  destruct (decode_cell startAddress) as [startCell|err]; [|done].
  destruct (decode_cell endAddress) as [endCell|err]; [|done].
  exists {| Xlsx.s := startCell; Xlsx.e := endCell |}.
  simpl in Hcall.
  assert (merged = <["!merges" :=
                       VMerges (registered_merges worksheet
                                ++ [{| Xlsx.s := startCell;
                                       Xlsx.e := endCell |}])]> worksheet)
    as ->.
  { unfold registered_merges, get in *.
    destruct (worksheet !! "!merges") as [[p|cell|merges]|]; simpl in *.
    - destruct (truthy_prim p); [done|]. by injection Hcall as <-.
    - done.
    - by injection Hcall as <-.
    - by injection Hcall as <-. }
  simpl. rewrite get_insert. simpl. eexists. split; [reflexivity|].
  rewrite !registered_merges_insert. split; [done|]. by rewrite <- app_assoc.
Qed.

(** X28. Registering a merge and writing a cell commute: done in either
    order they leave the same worksheet. *)
Theorem mergeCells_setCellValue_commute (worksheet merged : WorkSheet)
    (startAddress endAddress cellAddress : string) (value : CellValue)
    (formatCell : option bool) :
  cellAddress ≠ "!merges" →
  mergeCells worksheet startAddress endAddress = Ok merged →
  ∃ written both,
    setCellValue worksheet cellAddress value formatCell = Ok written
    ∧ mergeCells written startAddress endAddress = Ok both
    ∧ setCellValue merged cellAddress value formatCell = Ok both.
Proof.
  intros Haddress Hcall.
  destruct (setCellValue_stores value formatCell) as [stored Hstores].
  exists (<[cellAddress := stored]> worksheet),
         (<[cellAddress := stored]> merged).
  split; [apply Hstores|]. split; [|apply Hstores].
  rewrite mergeCells_cases in *.
  destruct (decode_cell startAddress) as [startCell|err]; [|done].
  destruct (decode_cell endAddress) as [endCell|err]; [|done].
  simpl in *. rewrite get_insert_ne by done.
  destruct (truthy (get worksheet "!merges")).
  - destruct (get worksheet "!merges") as [p|cell|merges]; try done.
    injection Hcall as <-. f_equal. by apply insert_insert_ne.
  - injection Hcall as <-. f_equal. by apply insert_insert_ne.
Qed.

End MergeRegistrarMore.

Lemma mergeCells_frame_witness :
  ∃ merged,
    mergeCells (utils := A1_utils) sheet_1234 "A1" "B2" = Ok merged
    ∧ merged !! "A1" = sheet_1234 !! "A1".
Proof.
  eexists. split; [reflexivity|].
  apply (mergeCells_frame (utils := A1_utils) sheet_1234 _ "A1" "B2");
    [reflexivity|discriminate].
Defined.

Lemma mergeCells_falsy_witness :
  truthy (get (<["!merges" := undefined]> sheet_x) "!merges") = false
  ∧ mergeCells (utils := A1_utils) (<["!merges" := undefined]> sheet_x) "A1" "B2"
    = Ok (<["!merges" := VMerges [A1_B2]]> (<["!merges" := undefined]> sheet_x)).
Proof.
  split; [reflexivity|].
  apply (mergeCells_falsy (utils := A1_utils)); reflexivity.
Defined.

Lemma mergeCells_twice_witness :
  ∃ merged merged',
    mergeCells (utils := A1_utils) sheet_x "A1" "B2" = Ok merged
    ∧ mergeCells (utils := A1_utils) merged "A1" "B2" = Ok merged'
    ∧ registered_merges merged' = [A1_B2; A1_B2].
Proof.
  destruct (mergeCells_twice (utils := A1_utils) sheet_x
              (<["!merges" := VMerges [A1_B2]]> sheet_x) "A1" "B2" "A1" "B2"
              {| Xlsx.c := 0; Xlsx.r := 0 |} {| Xlsx.c := 1; Xlsx.r := 1 |}
              eq_refl eq_refl eq_refl)
    as (range & merged' & Hcall & Hfirst & Hsecond).
  exists (<["!merges" := VMerges [A1_B2]]> sheet_x), merged'.
  split; [reflexivity|]. split; [exact Hcall|].
  vm_compute in Hfirst. injection Hfirst as <-.
  rewrite Hsecond. reflexivity.
Defined.

Lemma mergeCells_setCellValue_commute_witness :
  ∃ merged written both,
    mergeCells (utils := A1_utils) sheet_x "A1" "B2" = Ok merged
    ∧ setCellValue sheet_x "B2" (OfNumber forty_two) None = Ok written
    ∧ mergeCells (utils := A1_utils) written "A1" "B2" = Ok both
    ∧ setCellValue merged "B2" (OfNumber forty_two) None = Ok both.
Proof.
  destruct (mergeCells_setCellValue_commute (utils := A1_utils) sheet_x
              (<["!merges" := VMerges [A1_B2]]> sheet_x) "A1" "B2" "B2"
              (OfNumber forty_two) None)
    as (written & both & Hwrite & Hmerge & Hwrite');
    [discriminate|reflexivity|].
  exists (<["!merges" := VMerges [A1_B2]]> sheet_x), written, both.
  split; [reflexivity|]. split; [exact Hwrite|]. split; [exact Hmerge|exact Hwrite'].
Defined.

(** ** [countDecimals] *)

(** [Number::toString] and [countDecimals] on the examples of the
    declaration and on numbers printed in each of the four layouts. *)
Example toString_texts :
  Number_toString (parseFloat "1.12345") = "1.12345"
  ∧ Number_toString forty_two = "42"
  ∧ Number_toString three_tenths_and_an_ulp = "0.30000000000000004"
  ∧ Number_toString (parseFloat "0.000001234") = "0.000001234"
  ∧ Number_toString (parseFloat "-1.5e-7") = "-1.5e-7"
  ∧ Number_toString (number_of_Z (2 ^ 70)) = "1.1805916207174113e+21".
Proof. repeat split; by vm_compute. Qed.

Example countDecimals_values :
  countDecimals (parseFloat "1.12345") = 5
  ∧ countDecimals forty_two = 0
  ∧ countDecimals three_tenths_and_an_ulp = 17
  ∧ countDecimals (parseFloat "-1.5e-7") = 4.
Proof. repeat split; by vm_compute. Qed.

Lemma Number_equal_refl (x : number) : x ≠ NaN → Number_equal x x = true.
Proof.
  intros Hx. destruct x as [s|s| |s m e]; try done.
  - by destruct s.
  - unfold Number_equal, SFeqb. simpl.
    destruct s; by rewrite Z.compare_refl, Pos.compare_cont_refl.
Qed.

(** [Math.floor] returns a whole number as it is. *)
Lemma Math_floor_whole (x : number) : whole x → Math_floor x = x.
Proof.
  destruct x as [s|s| |s m e]; try done.
  unfold Math_floor. simpl. intros Hwhole.
  destruct (0 <=? e) eqn:He; [done|].
  apply Z.leb_gt in He.
  replace (Z.max 0 (- e)) with (- e) in Hwhole by lia.
  by rewrite Hwhole.
Qed.

(** X29. [countDecimals] is 0 for every whole number, for both infinities
    and for NaN. *)
Theorem countDecimals_zero (x : number) :
  whole x ∨ non_finite x → countDecimals x = 0.
Proof.
  intros [Hwhole|Hnon_finite]; unfold countDecimals.
  - rewrite Math_floor_whole by done.
    rewrite Number_equal_refl; [done|]. by intros ->.
  - destruct x as [s|s| |s m e]; try done.
    by destruct s.
Qed.

Lemma countDecimals_zero_witness :
  whole forty_two ∧ countDecimals forty_two = 0.
Proof.
  split; [reflexivity|]. apply (countDecimals_zero forty_two). left. reflexivity.
Defined.
